(** * Battery-cell dashboard: a shallow embedding of [cell_main.py] and [main.py]

    The two scripts generate synthetic telemetry for a list of battery cells,
    put it in a pandas [DataFrame], aggregate four statistics and export the
    frame as CSV.  This development embeds the data-carrying part of both
    scripts and proves the properties their specification states about it.

    Modelling conventions.

    - A Python [float] is written as a rational (type [Q]) and stands for
      the double nearest to it: a literal or a rounded number is written as
      its decimal, as Python prints it.  The additions, subtractions and
      products of the generators are those of binary64: the exact operation
      on the doubles of the operands, rounded to the nearest double, ties to
      even ([Py.fadd], [Py.fsub], [Py.fmul]; overflow and subnormal numbers
      do not occur in the ranges of the scripts and are not modelled).
      [round(x, n)] is round-half-to-even at [n] decimals of the exact value
      of [x], as CPython rounds the exact value of a double.
    - The statistics of pandas ([Series.mean], [Series.sum]) are taken
      exact: pandas adds doubles in an order of its own, so a statistic of
      the embedding is the one of the scripts up to the rounding of these
      additions.  [Pandas.total_doubles] is the sum added in binary64 from
      left to right.
    - The random source is the sequence of values that successive calls of
      [random.random()] return; [random.uniform(a, b)] is [a + (b-a) * u] in
      binary64, as in CPython's [random] module.  Code that draws numbers
      lives in the state monad [Rand] over that sequence.
    - A [dict] is an association list in insertion order, a [DataFrame] the
      list of its rows with the column index pandas derives from their keys.
    - Streamlit calls (widgets, charts, messages) only display; the embedding
      keeps what they receive and drops the rendering.  In particular the
      four numbers handed to [st.metric] are kept as numbers, before their
      [f"{x:.2f}"] formatting. *)

From Stdlib Require Import ZArith QArith Qround Qabs Qpower List String Ascii Bool.
From Stdlib Require Import Lia Lqa Permutation DecimalString DecimalNat Morphisms.
Import ListNotations.

Local Open Scope string_scope.
Local Open Scope Q_scope.

(* ================================================================= *)
(** ** Python built-ins used by the scripts *)

Module Py.

(** Cell values that occur in the scripts' dictionaries and frames. *)
Inductive value : Type :=
| VStr (s : string)
| VInt (z : Z)
| VFloat (q : Q)
| VNaN.

(** Exceptions.  [KeyError] is what a missing column raises;
    [ZeroDivisionError] is Python's division error (no expression of the
    two scripts raises it, the type carries it so that statements can
    speak about it). *)
Inductive exn : Type :=
| KeyError (key : string)
| TypeError
| ZeroDivisionError.

Definition dict : Type := list (string * value).

Definition keys (d : dict) : list string := map fst d.

Fixpoint get (d : dict) (k : string) : option value :=
  match d with
  | [] => None
  | (k', v) :: d' => if String.eqb k' k then Some v else get d' k
  end.

(** [str.lower()] and [str.upper()], on ASCII letters (the cell-type tags
    are ASCII; other bytes are left as they are). *)
Definition lower_ascii (c : ascii) : ascii :=
  let n := nat_of_ascii c in
  if Nat.leb 65 n && Nat.leb n 90 then ascii_of_nat (n + 32) else c.

Definition upper_ascii (c : ascii) : ascii :=
  let n := nat_of_ascii c in
  if Nat.leb 97 n && Nat.leb n 122 then ascii_of_nat (n - 32) else c.

Fixpoint smap (f : ascii -> ascii) (s : string) : string :=
  match s with
  | EmptyString => EmptyString
  | String c s' => String (f c) (smap f s')
  end.

Definition lower : string -> string := smap lower_ascii.
Definition upper : string -> string := smap upper_ascii.

(** [str.strip()]: ASCII white space removed at both ends. *)
Definition is_space (c : ascii) : bool :=
  let n := nat_of_ascii c in
  (Nat.leb 9 n && Nat.leb n 13) || (Nat.leb 28 n && Nat.leb n 32).

Fixpoint lstrip (s : string) : string :=
  match s with
  | EmptyString => EmptyString
  | String c s' => if is_space c then lstrip s' else s
  end.

Fixpoint rstrip (s : string) : string :=
  match s with
  | EmptyString => EmptyString
  | String c s' =>
      match rstrip s' with
      | EmptyString => if is_space c then EmptyString else String c EmptyString
      | r => String c r
      end
  end.

Definition strip (s : string) : string := rstrip (lstrip s).

(** Truth value of a string: [if s:]. *)
Definition truthy (s : string) : bool :=
  match s with EmptyString => false | _ => true end.

(** [str(n)] for a non-negative integer. *)
Definition str_of_nat (n : nat) : string :=
  NilEmpty.string_of_uint (Nat.to_uint n).

(** [enumerate(l, start)]. *)
Definition enumerate {A : Type} (l : list A) (start : nat) : list (nat * A) :=
  combine (seq start (List.length l)) l.

(** Insertion of a key in an insertion-ordered key set. *)
Definition insert_key (acc : list string) (k : string) : list string :=
  if existsb (String.eqb k) acc then acc else acc ++ [k].

(** [list(dict.fromkeys(l))]: the distinct elements of [l], each at the
    place of its first occurrence. *)
Definition dict_fromkeys (l : list string) : list string :=
  fold_left insert_key l [].

(** Round half to even of a rational to an integer. *)
Definition round_half_even (y : Q) : Z :=
  let f := Qfloor y in
  match Qcompare (y - inject_Z f) (1 # 2) with
  | Lt => f
  | Gt => (f + 1)%Z
  | Eq => if Z.even f then f else (f + 1)%Z
  end.

(** [round(x, ndigits)]. *)
Definition round (x : Q) (ndigits : nat) : Q :=
  let scale := inject_Z (10 ^ Z.of_nat ndigits) in
  inject_Z (round_half_even (x * scale)) / scale.

(** The exponent of the binade of a positive rational: the [e] with
    [2^e <= q < 2^(e+1)]. *)
Definition binade (q : Q) : Z :=
  let e := (Z.log2 (Qnum q) - Z.log2 (Zpos (Qden q)))%Z in
  if Qle_bool (2 ^ e) q then e else (e - 1)%Z.

(** The binary64 number nearest a positive rational: 53 significant bits,
    ties to even. *)
Definition nearest (q : Q) : Q :=
  let scale := 2 ^ (52 - binade q) in
  inject_Z (round_half_even (q * scale)) / scale.

(** The double a rational stands for. *)
Definition double (q : Q) : Q :=
  match Qcompare q 0 with
  | Eq => 0
  | Gt => nearest q
  | Lt => - nearest (- q)
  end.

(** [x + y], [x - y] and [x * y] on floats. *)
Definition fadd (x y : Q) : Q := double (double x + double y).
Definition fsub (x y : Q) : Q := double (double x - double y).
Definition fmul (x y : Q) : Q := double (double x * double y).

End Py.

(* ================================================================= *)
(** ** The random source *)

Module Random.

(** The values the coming calls of [random.random()] return, first call
    at index [0]. *)
Definition state : Type := nat -> Q.

(** What the generator promises about them: each lies in [0, 1). *)
Definition unit_draws (g : state) : Prop :=
  forall n, 0 <= g n /\ g n < 1.

Definition Rand (A : Type) : Type := state -> A * state.

Definition ret {A : Type} (a : A) : Rand A := fun g => (a, g).

Definition bind {A B : Type} (m : Rand A) (k : A -> Rand B) : Rand B :=
  fun g => let (a, g') := m g in k a g'.

(** [random.random()]. *)
Definition random : Rand Q :=
  fun g => (g 0%nat, fun n => g (S n)).

(** [random.uniform(a, b)]. *)
Definition uniform (a b : Q) : Rand Q :=
  bind random (fun u => ret (Py.fadd a (Py.fmul (Py.fsub b a) u))).

(** A [for] loop that appends one result per element. *)
Fixpoint for_each {A B : Type} (l : list A) (body : A -> Rand B)
  : Rand (list B) :=
  match l with
  | [] => ret []
  | x :: l' =>
      bind (body x) (fun y =>
      bind (for_each l' body) (fun ys => ret (y :: ys)))
  end.

(** Loops whose body may raise: the first exception ends the loop. *)
Definition bind_exn {E A B : Type} (m : Rand (E + A)) (k : A -> Rand (E + B))
  : Rand (E + B) :=
  fun g => match m g with
           | (inl e, g') => (inl e, g')
           | (inr a, g') => k a g'
           end.

Fixpoint for_each_exn {E A B : Type} (l : list A) (body : A -> Rand (E + B))
  : Rand (E + list B) :=
  match l with
  | [] => ret (inr [])
  | x :: l' =>
      bind_exn (body x) (fun y =>
      bind_exn (for_each_exn l' body) (fun ys => ret (inr (y :: ys))))
  end.

End Random.

Declare Scope rand_scope.
Delimit Scope rand_scope with rand.
Notation "x <- m ;; k" := (Random.bind m (fun x => k))
  (at level 61, m at next level, right associativity) : rand_scope.

Notation "x <-! m ;; k" := (Random.bind_exn m (fun x => k))
  (at level 61, m at next level, right associativity) : rand_scope.

(** Sequencing of computations that may raise. *)
Definition bind_sum {E A B : Type} (m : E + A) (k : A -> E + B) : E + B :=
  match m with
  | inl e => inl e
  | inr a => k a
  end.

Notation "x <-? m ;; k" := (bind_sum m (fun x => k))
  (at level 61, m at next level, right associativity).

(* ================================================================= *)
(** ** The part of pandas the scripts use *)

Module Pandas.
Import Py.

Record DataFrame : Type := mkDataFrame {
  columns : list string;
  records : list dict
}.

(** [pd.DataFrame(data)] for a list of dictionaries: one row per
    dictionary, the columns are the keys in order of first appearance
    (so no column at all for an empty list). *)
Definition from_records (data : list dict) : DataFrame :=
  {| columns := dict_fromkeys (flat_map keys data); records := data |}.

Definition cell (k : string) (row : dict) : value :=
  match get row k with Some v => v | None => VNaN end.

(** [df[k]]: the column as a list of values, [KeyError] when the frame has
    no such column. *)
Definition getitem (df : DataFrame) (k : string) : exn + list value :=
  if existsb (String.eqb k) (columns df)
  then inr (map (cell k) (records df))
  else inl (KeyError k).

(** The numbers of a column, missing values skipped ([skipna=True]).  The
    scripts aggregate float columns only; a column holding a string is
    reported as [TypeError]. *)
Fixpoint numbers (s : list value) : exn + list Q :=
  match s with
  | [] => inr []
  | v :: s' =>
      match numbers s' with
      | inl e => inl e
      | inr qs =>
          match v with
          | VFloat q => inr (q :: qs)
          | VInt z => inr (inject_Z z :: qs)
          | VNaN => inr qs
          | VStr _ => inl TypeError
          end
      end
  end.

(** The exact sum of the numbers of a column. *)
Definition total (qs : list Q) : Q := fold_right Qplus 0 qs.


(** [Series.sum()]. *)
Definition sum (s : list value) : exn + value :=
  match numbers s with
  | inl e => inl e
  | inr qs => inr (VFloat (total qs))
  end.

(** [Series.mean()]: [nan] on a column without numbers, and no error. *)
Definition mean (s : list value) : exn + value :=
  match numbers s with
  | inl e => inl e
  | inr [] => inr VNaN
  | inr qs => inr (VFloat (total qs / inject_Z (Z.of_nat (List.length qs))))
  end.

(** The header line of [df.to_csv(index=False)]: the column names joined
    by commas (none of the names in the scripts needs quoting). *)
Definition to_csv_header (df : DataFrame) : string :=
  String.concat "," (columns df).

End Pandas.

(* ================================================================= *)
(** ** cell_main.py *)

Module CellMain.
Import Py Random Pandas.
Local Open Scope rand_scope.

Definition AVAILABLE_CELL_TYPES : list string :=
  ["LFP"; "NMC"; "NCA"; "LMO"; "LTO"; "NiMH"; "Lead-Acid"].

Definition OPERATING_MODES : list string :=
  ["Idle"; "Charging"; "Discharging"].

Definition voltage_base (cell_type : string) : Q :=
  if String.eqb cell_type "lfp" then 3.2 else 3.6.

(** The body of the loop of [generate_cell_data]: one dictionary. *)
Definition generate_row (idx : nat) (cell_type mode : string) : Rand dict :=
  let base := voltage_base cell_type in
  vc <- (if String.eqb mode "Charging" then
           u <- uniform (fadd base 0.1) (fadd base 0.5) ;;
           w <- uniform 1.0 5.0 ;;
           ret (round u 2, round w 2)
         else if String.eqb mode "Discharging" then
           u <- uniform (fsub base 0.5) (fsub base 0.1) ;;
           w <- uniform 0.5 3.0 ;;
           ret (round u 2, round w 2)
         else
           u <- uniform (fsub base 0.05) (fadd base 0.05) ;;
           ret (round u 2, 0.0)) ;;
  let voltage := fst vc in
  let current := snd vc in
  t <- uniform 25 40 ;;
  let temp := round t 1 in
  let capacity := round (fmul voltage current) 2 in
  ret [ ("Cell ID", VStr ("Cell_" ++ str_of_nat idx));
        ("Type", VStr (upper cell_type));
        ("Mode", VStr mode);
        ("🔋 Voltage (V)", VFloat voltage);
        ("⚡ Current (A)", VFloat current);
        ("🌡️ Temp (°C)", VFloat temp);
        ("⚙️ Capacity (Wh)", VFloat capacity) ].

Definition generate_rows (cell_selection : list string) (mode : string)
  : Rand (list dict) :=
  for_each (enumerate cell_selection 1)
           (fun '(idx, cell_type) => generate_row idx cell_type mode).

Definition generate_cell_data (cell_selection : list string) (mode : string)
  : Rand DataFrame :=
  data <- generate_rows cell_selection mode ;;
  ret (from_records data).

(** The four statistics, as [show_metrics] computes them one after the
    other (the arguments of its four [st.metric] calls). *)
Record metrics : Type := mkMetrics {
  avg_voltage : value;
  avg_current : value;
  avg_temp : value;
  total_capacity : value
}.

Definition show_metrics (df : DataFrame) : exn + metrics :=
  v <-? (s <-? getitem df "🔋 Voltage (V)" ;; mean s) ;;
  c <-? (s <-? getitem df "⚡ Current (A)" ;; mean s) ;;
  t <-? (s <-? getitem df "🌡️ Temp (°C)" ;; mean s) ;;
  w <-? (s <-? getitem df "⚙️ Capacity (Wh)" ;; sum s) ;;
  inr (mkMetrics v c t w).

(** [df.set_index("Cell ID")[k]]: the column [k] labelled by cell. *)
Definition indexed_by_cell (df : DataFrame) (k : string)
  : exn + list (value * value) :=
  ids <-? getitem df "Cell ID" ;;
  s <-? getitem df k ;;
  inr (combine ids s).

(** The two series [show_charts] hands to [st.bar_chart]. *)
Definition show_charts (df : DataFrame)
  : exn + (list (value * value) * list (value * value)) :=
  temps <-? indexed_by_cell df "🌡️ Temp (°C)" ;;
  caps <-? indexed_by_cell df "⚙️ Capacity (Wh)" ;;
  inr (temps, caps).

(** [download_csv]: the header line of the file offered for download. *)
Definition download_csv (df : DataFrame) : string := to_csv_header df.

(** What one run of a page ends with. *)
Inductive outcome : Type :=
| Info
| Warning
| Generated (df : DataFrame) (m : metrics) (csv_header : string)
| Raised (e : exn).

(** [dashboard]: [selected] holds the values of the [num_cells] type
    select boxes, [submitted] tells whether the form was submitted. *)
Definition dashboard (selected : list string) (operation_mode : string)
  (submitted : bool) : Rand outcome :=
  let cell_types := map lower selected in
  if submitted then
    match cell_types with
    | [] => ret Warning
    | _ =>
        df <- generate_cell_data cell_types operation_mode ;;
        ret match show_metrics df with
            | inl e => Raised e
            | inr m =>
                match show_charts df with
                | inl e => Raised e
                | inr _ => Generated df m (download_csv df)
                end
            end
    end
  else ret Info.

(** One record of the loop of [performance_and_graphs]. *)
Definition performance_record (t : nat) (mode : string) (df : DataFrame)
  : exn + dict :=
  avg_voltage <-? (s <-? getitem df "🔋 Voltage (V)" ;; mean s) ;;
  avg_current <-? (s <-? getitem df "⚡ Current (A)" ;; mean s) ;;
  avg_temp <-? (s <-? getitem df "🌡️ Temp (°C)" ;; mean s) ;;
  total_capacity <-? (s <-? getitem df "⚙️ Capacity (Wh)" ;; sum s) ;;
  inr [ ("Time", VInt (Z.of_nat t));
        ("Mode", VStr mode);
        ("Avg Voltage", avg_voltage);
        ("Avg Current", avg_current);
        ("Avg Temp", avg_temp);
        ("Total Capacity", total_capacity) ].

(** The nested loop of [performance_and_graphs], with the list of modes,
    the number of steps and the cell selection it iterates over as
    arguments. *)
Definition sample_series (modes : list string) (steps : nat)
  (cell_selection : list string) : Rand (exn + list dict) :=
  per_mode <-! for_each_exn modes (fun mode =>
    for_each_exn (seq 0 steps) (fun t =>
      df <- generate_cell_data cell_selection mode ;;
      ret (performance_record t mode df))) ;;
  ret (inr (List.concat per_mode)).

(** [performance_and_graphs]: the loop runs over the three modes, ten
    steps each, on the cells lfp, nmc and nca; the result is [perf_df]. *)
Definition performance_and_graphs : Rand (exn + DataFrame) :=
  records <-! sample_series OPERATING_MODES 10 ["lfp"; "nmc"; "nca"] ;;
  ret (inr (from_records records)).

(** [realtime_application]: [mode] is the value of the select box,
    [pressed] tells whether the button was pressed.  The result lists what
    the twenty rounds of the loop display: the frame and its metrics. *)
Definition realtime_application (mode : string) (pressed : bool)
  : Rand (exn + list (DataFrame * metrics)) :=
  let cell_selection := ["lfp"; "nmc"; "nca"] in
  if pressed then
    for_each_exn (seq 0 20) (fun _ =>
      df <- generate_cell_data cell_selection mode ;;
      ret (m <-? show_metrics df ;;
           _ <-? show_charts df ;;
           inr (df, m)))
  else ret (inr []).

End CellMain.

(* ================================================================= *)
(** ** main.py *)

Module Main.
Import Py Random Pandas.
Local Open Scope rand_scope.

Definition available_cell_types : list string :=
  ["LFP"; "NMC"; "NCA"; "LMO"; "LTO"; "NiMH"; "Lead-Acid"].

(** The selection the sidebar builds from the values of its select boxes:
    the chosen tags in lower case, then empty and duplicate entries
    removed. *)
Definition select_cells (selected : list string) : list string :=
  let cell_selection := map lower (filter truthy selected) in
  dict_fromkeys
    (filter (fun c => negb (String.eqb (strip c) "")) cell_selection).

(** The body of the generation loop: one dictionary. *)
Definition generate_row (idx : nat) (cell_type : string) : Rand dict :=
  let voltage := if String.eqb cell_type "lfp" then 3.2 else 3.6 in
  u <- uniform 0.5 5.0 ;;
  let current := round u 2 in
  t <- uniform 25 40 ;;
  let temp := round t 1 in
  let capacity := round (fmul voltage current) 2 in
  ret [ ("Cell ID", VStr ("Cell_" ++ str_of_nat idx));
        ("Type", VStr (upper cell_type));
        ("🔋 Voltage (V)", VFloat voltage);
        ("⚡ Current (A)", VFloat current);
        ("🌡️ Temp (°C)", VFloat temp);
        ("⚙️ Capacity (Wh)", VFloat capacity) ].

Definition generate_rows (cell_selection : list string) : Rand (list dict) :=
  for_each (enumerate cell_selection 1)
           (fun '(idx, cell_type) => generate_row idx cell_type).

(** The four statistics of the metrics row. *)
Definition show_metrics (df : DataFrame) : exn + CellMain.metrics :=
  v <-? (s <-? getitem df "🔋 Voltage (V)" ;; mean s) ;;
  c <-? (s <-? getitem df "⚡ Current (A)" ;; mean s) ;;
  t <-? (s <-? getitem df "🌡️ Temp (°C)" ;; mean s) ;;
  w <-? (s <-? getitem df "⚙️ Capacity (Wh)" ;; sum s) ;;
  inr (CellMain.mkMetrics v c t w).

(** The script from its sidebar down: [selected] holds the values of the
    eight select boxes, [pressed] tells whether the button was pressed. *)
Definition script (selected : list string) (pressed : bool)
  : Rand CellMain.outcome :=
  let cell_selection := select_cells selected in
  if pressed then
    match cell_selection with
    | [] => ret CellMain.Warning
    | _ =>
        cell_data <- generate_rows cell_selection ;;
        let df := from_records cell_data in
        ret match show_metrics df with
            | inl e => CellMain.Raised e
            | inr m =>
                match CellMain.show_charts df with
                | inl e => CellMain.Raised e
                | inr _ => CellMain.Generated df m (to_csv_header df)
                end
            end
    end
  else ret CellMain.Info.

End Main.

(* ================================================================= *)
(** ** Vocabulary of the specification *)

Module Spec.
Import Py Random Pandas.

(** Column names, as the scripts spell them. *)
Abbreviation VOLTAGE := "🔋 Voltage (V)"%string (only parsing).
Abbreviation CURRENT := "⚡ Current (A)"%string (only parsing).
Abbreviation TEMP := "🌡️ Temp (°C)"%string (only parsing).
Abbreviation CAPACITY := "⚙️ Capacity (Wh)"%string (only parsing).

(** The dictionary of one reading of [cell_main.py], given its fields. *)
Definition reading_dict (cell_id type_ mode : string) (voltage current temp : Q)
  : dict :=
  [ ("Cell ID", VStr cell_id); ("Type", VStr type_); ("Mode", VStr mode);
    (VOLTAGE, VFloat voltage); (CURRENT, VFloat current);
    (TEMP, VFloat temp); (CAPACITY, VFloat (round (fmul voltage current) 2)) ].

(** The same for [main.py], whose readings have no mode. *)
Definition plain_dict (cell_id type_ : string) (voltage current temp : Q)
  : dict :=
  [ ("Cell ID", VStr cell_id); ("Type", VStr type_);
    (VOLTAGE, VFloat voltage); (CURRENT, VFloat current);
    (TEMP, VFloat temp); (CAPACITY, VFloat (round (fmul voltage current) 2)) ].

(** A float field of a row lies between two bounds. *)
Definition within (row : dict) (k : string) (lo hi : Q) : Prop :=
  exists q, get row k = Some (VFloat q) /\ lo <= q /\ q <= hi.

(** A number has at most [n] decimals. *)
Definition decimals (n : nat) (q : Q) : Prop := round q n == q.

(** The documented bounds of a reading, by mode. *)
Definition documented_bounds (base : Q) (mode : string) (row : dict) : Prop :=
  (mode = "Charging" ->
     within row VOLTAGE (base + 0.1) (base + 0.5) /\
     within row CURRENT 1.0 5.0) /\
  (mode = "Discharging" ->
     within row VOLTAGE (base - 0.5) (base - 0.1) /\
     within row CURRENT 0.5 3.0) /\
  (mode = "Idle" ->
     within row VOLTAGE (base - 0.05) (base + 0.05) /\
     get row CURRENT = Some (VFloat 0.0)) /\
  within row TEMP 25 40.

(** The bounds of the branch taken for a mode that is neither Charging nor
    Discharging. *)
Definition idle_bounds (base : Q) (row : dict) : Prop :=
  within row VOLTAGE (base - 0.05) (base + 0.05) /\
  get row CURRENT = Some (VFloat 0.0).

(** Capacity is derived from the row's own voltage and current, which have
    two decimals: it is their product as doubles, rounded to two
    decimals. *)
Definition capacity_derived (row : dict) : Prop :=
  exists v c,
    get row VOLTAGE = Some (VFloat v) /\
    get row CURRENT = Some (VFloat c) /\
    get row CAPACITY = Some (VFloat (round (fmul v c) 2)) /\
    decimals 2 v /\ decimals 2 c.

(** Two strings that differ in the case of ASCII letters only. *)
Inductive case_variant : string -> string -> Prop :=
| cv_empty : case_variant EmptyString EmptyString
| cv_char c1 c2 s1 s2 :
    c1 = c2 \/ c1 = lower_ascii c2 \/ c1 = upper_ascii c2 ->
    case_variant s1 s2 ->
    case_variant (String c1 s1) (String c2 s2).

(** The base voltage the specification gives a tag. *)
Definition spec_base (tag : string) : Q :=
  if String.eqb tag "LFP" then 3.2 else 3.6.

Definition count_nonempty (l : list string) : nat :=
  List.length (filter truthy l).

(** The header the specification gives the exported file. *)
Definition spec_header (with_mode : bool) : list string :=
  ["Cell ID"; "Type"] ++ (if with_mode then ["Mode"] else []) ++
  ["Voltage (V)"; "Current (A)"; "Temp (°C)"; "Capacity (Wh)"].

(** Equality of values up to the representation of rationals. *)
Definition value_equiv (a b : value) : Prop :=
  match a, b with
  | VStr s, VStr t => s = t
  | VInt x, VInt y => x = y
  | VFloat p, VFloat q => p == q
  | VNaN, VNaN => True
  | _, _ => False
  end.

Definition metrics_equiv (m m' : CellMain.metrics) : Prop :=
  value_equiv (CellMain.avg_voltage m) (CellMain.avg_voltage m') /\
  value_equiv (CellMain.avg_current m) (CellMain.avg_current m') /\
  value_equiv (CellMain.avg_temp m) (CellMain.avg_temp m') /\
  value_equiv (CellMain.total_capacity m) (CellMain.total_capacity m').


(** Two runs end alike: the same exception, or equivalent results. *)
Definition same_result {A : Type} (R : A -> A -> Prop) (r r' : exn + A) : Prop :=
  match r, r' with
  | inl e, inl e' => e = e'
  | inr a, inr a' => R a a'
  | _, _ => False
  end.

(** The (time, mode) tag of a record of the time series. *)
Definition tag (record : dict) : option value * option value :=
  (get record "Time", get record "Mode").

Definition expected_tags (modes : list string) (steps : nat)
  : list (option value * option value) :=
  flat_map (fun mode =>
    map (fun t => (Some (VInt (Z.of_nat t)), Some (VStr mode))) (seq 0 steps))
    modes.

(** The bounds of the branch [generate_cell_data] takes for a mode. *)
Definition branch_bounds (base : Q) (mode : string) (v c : Q) : Prop :=
  if String.eqb mode "Charging" then
    (base + 0.1 <= v /\ v <= base + 0.5) /\ (1.0 <= c /\ c <= 5.0)
  else if String.eqb mode "Discharging" then
    (base - 0.5 <= v /\ v <= base - 0.1) /\ (0.5 <= c /\ c <= 3.0)
  else
    (base - 0.05 <= v /\ v <= base + 0.05) /\ c = 0.0.

(** What is known of the row generated for the cell at position [fst ix]:
    its shape always, its bounds when the draws lie in [0, 1). *)
Definition reading_at (bounded : bool) (mode : string) (ix : nat * string)
  (row : dict) : Prop :=
  exists v c t,
    row = reading_dict ("Cell_" ++ str_of_nat (fst ix)) (upper (snd ix)) mode v c t /\
    decimals 2 v /\ decimals 2 c /\
    (bounded = true ->
       branch_bounds (CellMain.voltage_base (snd ix)) mode v c /\
       (25 <= t /\ t <= 40)).

Definition plain_at (bounded : bool) (ix : nat * string) (row : dict) : Prop :=
  exists c t,
    row = plain_dict ("Cell_" ++ str_of_nat (fst ix)) (upper (snd ix))
            (CellMain.voltage_base (snd ix)) c t /\
    decimals 2 (CellMain.voltage_base (snd ix)) /\ decimals 2 c /\
    (bounded = true -> (0.5 <= c /\ c <= 5.0) /\ (25 <= t /\ t <= 40)).

(** The columns of the frames of the two scripts. *)
Definition CELL_MAIN_COLUMNS : list string :=
  ["Cell ID"; "Type"; "Mode"; VOLTAGE; CURRENT; TEMP; CAPACITY].

Definition MAIN_COLUMNS : list string :=
  ["Cell ID"; "Type"; VOLTAGE; CURRENT; TEMP; CAPACITY].

Definition PERFORMANCE_COLUMNS : list string :=
  ["Time"; "Mode"; "Avg Voltage"; "Avg Current"; "Avg Temp"; "Total Capacity"].

(** A frame the aggregation succeeds on: it has rows, the cell column and
    the four float columns. *)
Definition float_column (df : DataFrame) (k : string) : Prop :=
  In k (columns df) /\
  Forall (fun r => exists q, get r k = Some (VFloat q)) (records df).

Definition telemetry_frame (df : DataFrame) : Prop :=
  records df <> [] /\ In "Cell ID" (columns df) /\
  float_column df VOLTAGE /\ float_column df CURRENT /\
  float_column df TEMP /\ float_column df CAPACITY.

(** The same reading but for the mode it records. *)
Definition same_but_mode (row row' : dict) : Prop :=
  forall k, k <> "Mode" -> get row k = get row' k.


(** Two readings with the same voltage and the same current. *)
Definition same_voltage_current (row row' : dict) : Prop :=
  exists v c v' c',
    get row VOLTAGE = Some (VFloat v) /\
    get row CURRENT = Some (VFloat c) /\
    get row' VOLTAGE = Some (VFloat v') /\
    get row' CURRENT = Some (VFloat c') /\
    v == v' /\ c == c'.

(** Two snapshots that agree, reading by reading, on voltage and current. *)
Definition same_telemetry (rows rows' : list dict) : Prop :=
  Forall2 same_voltage_current rows rows'.

(** What [main.py] puts in the reading of a cell. *)
Definition plain_reading (cell_type : string) (row : dict) : Prop :=
  get row "Mode" = None /\
  get row VOLTAGE = Some (VFloat (CellMain.voltage_base cell_type)) /\
  within row CURRENT 0.5 5.0 /\
  within row TEMP 25 40 /\
  capacity_derived row.

(** The range of the voltages of a fleet in a mode, over both base
    voltages. *)
Definition voltage_range (mode : string) : Q * Q :=
  if String.eqb mode "Charging" then (3.3, 4.1)
  else if String.eqb mode "Discharging" then (2.7, 3.5)
  else (3.15, 3.65).

Definition current_range (mode : string) : Q * Q :=
  if String.eqb mode "Charging" then (1.0, 5.0)
  else if String.eqb mode "Discharging" then (0.5, 3.0)
  else (0.0, 0.0).

(** The range of the capacity of a reading: the products of the bounds of
    its voltage and current. *)
Definition capacity_range (base : Q) (mode : string) : Q * Q :=
  if String.eqb mode "Charging" then ((base + 0.1) * 1.0, (base + 0.5) * 5.0)
  else if String.eqb mode "Discharging" then ((base - 0.5) * 0.5, (base - 0.1) * 3.0)
  else (0.0, 0.0).

Definition fleet_capacity_range (mode : string) : Q * Q :=
  if String.eqb mode "Charging" then (3.3, 20.5)
  else if String.eqb mode "Discharging" then (1.35, 10.5)
  else (0.0, 0.0).

Definition between (r : Q * Q) (q : Q) : Prop := fst r <= q /\ q <= snd r.

(** The number of rows, as a rational. *)
Definition count {A : Type} (l : list A) : Q := inject_Z (Z.of_nat (List.length l)).

(** A float field of a row, in a range. *)
Definition field_between (k : string) (r : Q * Q) (row : dict) : Prop :=
  exists q, get row k = Some (VFloat q) /\ between r q.

(** The precision of the temperature and capacity fields of a row. *)
Definition precise (row : dict) : Prop :=
  exists t w,
    get row TEMP = Some (VFloat t) /\ decimals 1 t /\
    get row CAPACITY = Some (VFloat w) /\ decimals 2 w.

(** The number of random draws the generator makes for one cell. *)
Definition draws_per_cell (mode : string) : nat :=
  if String.eqb mode "Charging" then 3
  else if String.eqb mode "Discharging" then 3
  else 2.

(** The distinct elements of a list, each kept where it first occurs. *)
Fixpoint first_occurrences (l : list string) : list string :=
  match l with
  | [] => []
  | x :: l' => x :: filter (fun y => negb (String.eqb x y)) (first_occurrences l')
  end.

(** The value of a select box of the sidebar of [main.py]: no choice, or
    one of the cell types. *)
Definition sidebar_option (s : string) : Prop :=
  s = "" \/ In s Main.available_cell_types.

(** A record of the time series of a fleet of [n] cells: its shape, and its
    statistics within the ranges of its mode. *)
Definition series_record (n : Q) (modes : list string) (record : dict) : Prop :=
  exists t mode v c tm w,
    record = [ ("Time", VInt t); ("Mode", VStr mode);
               ("Avg Voltage", VFloat v); ("Avg Current", VFloat c);
               ("Avg Temp", VFloat tm); ("Total Capacity", VFloat w) ] /\
    In mode modes /\
    between (voltage_range mode) v /\ between (current_range mode) c /\
    between (25, 40) tm /\
    n * fst (fleet_capacity_range mode) <= w /\
    w <= n * snd (fleet_capacity_range mode).

(** A snapshot the real-time page displays: three readings, of the types
    LFP, NMC and NCA, and statistics within the ranges of the mode. *)
Definition realtime_snapshot (mode : string)
  (shown : DataFrame * CellMain.metrics) : Prop :=
  map (fun row => get row "Type") (records (fst shown))
  = [Some (VStr "LFP"); Some (VStr "NMC"); Some (VStr "NCA")] /\
  exists v c t w,
    snd shown = CellMain.mkMetrics (VFloat v) (VFloat c) (VFloat t) (VFloat w) /\
    between (voltage_range mode) v /\ between (current_range mode) c /\
    between (25, 40) t /\
    3 * fst (fleet_capacity_range mode) <= w /\
    w <= 3 * snd (fleet_capacity_range mode).

(** A random source used to run the scripts on examples: 0, 1/4, 1/2, 3/4,
    0, ... *)
Definition quarters : Random.state := fun n => Z.of_nat (n mod 4) # 4.

End Spec.

(* ================================================================= *)
(** * Proofs *)

(* ================================================================= *)
(** ** Rounding *)

Section Rounding.
Import Py.

Lemma round_half_even_floor (y : Q) : (Qfloor y <= round_half_even y)%Z.
Proof.
  unfold round_half_even.
  destruct (Qcompare _ _); [destruct (Z.even _) | |]; lia.
Qed.

Lemma round_half_even_next (y : Q) : (round_half_even y <= Qfloor y + 1)%Z.
Proof.
  unfold round_half_even.
  destruct (Qcompare _ _); [destruct (Z.even _) | |]; lia.
Qed.

(** Rounding never crosses an integer. *)
Lemma round_half_even_lower (y : Q) (z : Z) :
  inject_Z z <= y -> (z <= round_half_even y)%Z.
Proof.
  intros H. apply Qfloor_resp_le in H. rewrite Qfloor_Z in H.
  pose proof (round_half_even_floor y). lia.
Qed.

Lemma floor_below (y : Q) (z : Z) :
  y <= inject_Z z -> inject_Z (Qfloor y) < y -> (Qfloor y + 1 <= z)%Z.
Proof.
  intros Hy Hlt.
  assert (H : inject_Z (Qfloor y) < inject_Z z) by (eapply Qlt_le_trans; eauto).
  rewrite <- Zlt_Qlt in H. lia.
Qed.

Lemma round_half_even_upper (y : Q) (z : Z) :
  y <= inject_Z z -> (round_half_even y <= z)%Z.
Proof.
  intros H.
  assert (Hf : (Qfloor y <= z)%Z)
    by (apply Qfloor_resp_le in H; now rewrite Qfloor_Z in H).
  unfold round_half_even.
  destruct (Qcompare_spec (y - inject_Z (Qfloor y)) (1 # 2)); try assumption.
  - destruct (Z.even (Qfloor y)); try assumption.
    apply floor_below; trivial. lra.
  - apply floor_below; trivial. lra.
Qed.

Lemma round_half_even_inject (z : Z) : round_half_even (inject_Z z) = z.
Proof.
  apply Z.le_antisymm.
  - apply round_half_even_upper, Qle_refl.
  - apply round_half_even_lower, Qle_refl.
Qed.

Lemma round_half_even_comp (x y : Q) :
  x == y -> round_half_even x = round_half_even y.
Proof.
  intros H. unfold round_half_even.
  rewrite (Qfloor_comp _ _ H).
  assert (E : x - inject_Z (Qfloor y) == y - inject_Z (Qfloor y)) by (rewrite H; reflexivity).
  rewrite (Qcompare_comp _ _ E (1#2) (1#2) (Qeq_refl _)). reflexivity.
Qed.

Lemma round_half_even_monotone (x y : Q) :
  x <= y -> (round_half_even x <= round_half_even y)%Z.
Proof.
  intros H.
  pose proof (Qfloor_resp_le _ _ H) as Hf.
  destruct (Z.eq_dec (Qfloor x) (Qfloor y)) as [E | N].
  - unfold round_half_even. rewrite E.
    destruct (Qcompare_spec (x - inject_Z (Qfloor y)) (1 # 2));
    destruct (Qcompare_spec (y - inject_Z (Qfloor y)) (1 # 2));
    try (destruct (Z.even (Qfloor y))); try lia; exfalso; lra.
  - pose proof (round_half_even_next x). pose proof (round_half_even_floor y). lia.
Qed.

Lemma scale_pos (n : nat) : 0 < inject_Z (10 ^ Z.of_nat n).
Proof.
  replace 0 with (inject_Z 0) by reflexivity. rewrite <- Zlt_Qlt.
  apply Z.pow_pos_nonneg; lia.
Qed.

#[export] Instance round_comp : Proper (Qeq ==> eq ==> Qeq) round.
Proof.
  intros x y H n m <-. unfold round.
  rewrite (round_half_even_comp (x * _) (y * inject_Z (10 ^ Z.of_nat n))).
  - reflexivity.
  - rewrite H. reflexivity.
Qed.

Lemma round_monotone (n : nat) (x y : Q) : x <= y -> round x n <= round y n.
Proof.
  intros H. unfold round. pose proof (scale_pos n) as Hs.
  set (s := inject_Z (10 ^ Z.of_nat n)) in *.
  apply Qmult_le_compat_r.
  - rewrite <- Zle_Qle. apply round_half_even_monotone.
    apply Qmult_le_compat_r; [assumption | now apply Qlt_le_weak].
  - apply Qlt_le_weak, Qinv_lt_0_compat, Hs.
Qed.

(** Rounding to [n] decimals leaves a number of [n] decimals alone. *)
Lemma round_idempotent (n : nat) (x : Q) : round (round x n) n == round x n.
Proof.
  unfold round at 1. pose proof (scale_pos n) as Hs.
  set (s := inject_Z (10 ^ Z.of_nat n)) in *.
  rewrite (round_half_even_comp _ (inject_Z (round_half_even (x * s)))).
  - rewrite round_half_even_inject. reflexivity.
  - unfold round. fold s. field. intros E. rewrite E in Hs. now apply Qlt_irrefl in Hs.
Qed.

(** A rounded number stays between bounds that have [n] decimals. *)
Lemma round_within (n : nat) (lo hi x : Q) :
  Spec.decimals n lo -> Spec.decimals n hi ->
  lo <= x /\ x <= hi -> lo <= round x n /\ round x n <= hi.
Proof.
  unfold Spec.decimals. intros Hlo Hhi [H1 H2]. split.
  - rewrite <- Hlo. now apply round_monotone.
  - rewrite <- Hhi. now apply round_monotone.
Qed.

End Rounding.

(* ================================================================= *)
(** ** Binary64 arithmetic *)

Section Doubles.
Import Py.

Lemma pow2_pos (k : Z) : 0 < 2 ^ k.
Proof. apply Qpower_0_lt. reflexivity. Qed.

Lemma pow2_add (a b : Z) : 2 ^ (a + b) == 2 ^ a * 2 ^ b.
Proof. apply Qpower_plus. discriminate. Qed.

Lemma pow2_le (a b : Z) : (a <= b)%Z -> 2 ^ a <= 2 ^ b.
Proof. intros H. apply Qpower_le_compat_l; [exact H | discriminate]. Qed.

Lemma pow2_lt_inv (a b : Z) : 2 ^ a < 2 ^ b -> (a < b)%Z.
Proof. intros H. apply (Qpower_lt_compat_l_inv 2); [exact H | reflexivity]. Qed.

Lemma pow2_inject (k : Z) : (0 <= k)%Z -> inject_Z (2 ^ k) == 2 ^ k.
Proof. intros H. now rewrite Zpower_Qpower. Qed.

Lemma log2_bounds (n : Z) :
  (0 < n)%Z -> 2 ^ Z.log2 n <= inject_Z n /\ inject_Z n < 2 ^ (Z.log2 n + 1).
Proof.
  intros H. destruct (Z.log2_spec n H) as [L U].
  pose proof (Z.log2_nonneg n) as N.
  rewrite <- !pow2_inject by lia. rewrite <- Zle_Qle, <- Zlt_Qlt.
  split; [exact L | now rewrite Z.add_1_r].
Qed.

Lemma ratio_lt (n d x y : Q) :
  0 < d -> 0 < y -> 0 <= n -> n < x -> y <= d -> n / d < x / y.
Proof.
  intros Hd Hy Hn Hx Hyd.
  apply Qlt_shift_div_l; [exact Hy |].
  setoid_replace (n / d * y) with (n * y / d) by (field; lra).
  apply Qlt_shift_div_r; [exact Hd |].
  assert (0 <= n * (d - y)) by (apply Qmult_le_0_compat; lra).
  assert (0 < (x - n) * d) by (apply Qmult_lt_0_compat; lra).
  lra.
Qed.

Lemma ratio_le (n d x y : Q) :
  0 < d -> 0 < y -> 0 <= x -> x <= n -> d <= y -> x / y <= n / d.
Proof.
  intros Hd Hy Hx Hn Hdy.
  apply Qle_shift_div_l; [exact Hd |].
  setoid_replace (x / y * d) with (x * d / y) by (field; lra).
  apply Qle_shift_div_r; [exact Hy |].
  assert (0 <= x * (y - d)) by (apply Qmult_le_0_compat; lra).
  assert (0 <= (n - x) * y) by (apply Qmult_le_0_compat; lra).
  lra.
Qed.

Lemma pow2_sub (a b : Z) : 2 ^ (a - b) == 2 ^ a / 2 ^ b.
Proof.
  unfold Z.sub. rewrite pow2_add, Qpower_opp. reflexivity.
Qed.

(** [binade] is the exponent of the binade. *)
Lemma binade_spec (q : Q) :
  0 < q -> 2 ^ binade q <= q /\ q < 2 ^ (binade q + 1).
Proof.
  intros Hq. unfold binade.
  assert (Hn : (0 < Qnum q)%Z) by (unfold Qlt in Hq; cbn in Hq; lia).
  destruct (log2_bounds (Qnum q) Hn) as [N1 N2].
  destruct (log2_bounds (Zpos (Qden q)) eq_refl) as [D1 D2].
  set (a := Z.log2 (Qnum q)) in *. set (b := Z.log2 (Zpos (Qden q))) in *.
  assert (E : q == inject_Z (Qnum q) / inject_Z (Zpos (Qden q))).
  { destruct q as [n d]. cbn [Qnum Qden]. apply Qmake_Qdiv. }
  pose proof (pow2_pos a). pose proof (pow2_pos b).
  pose proof (pow2_pos (a + 1)). pose proof (pow2_pos (b + 1)).
  assert (U : q < 2 ^ (a - b + 1)).
  { replace (a - b + 1)%Z with (a + 1 - b)%Z by lia.
    rewrite pow2_sub, E. apply ratio_lt; lra. }
  assert (L : 2 ^ (a - b - 1) <= q).
  { replace (a - b - 1)%Z with (a - (b + 1))%Z by lia.
    rewrite pow2_sub, E. apply ratio_le; lra. }
  destruct (Qle_bool (2 ^ (a - b)) q) eqn:T.
  - apply Qle_bool_iff in T. split; assumption.
  - replace (a - b - 1 + 1)%Z with (a - b)%Z by lia. split; [exact L |].
    apply Qnot_le_lt. intros C. apply Qle_bool_iff in C. congruence.
Qed.

Lemma binade_unique (q : Q) (e : Z) :
  2 ^ e <= q -> q < 2 ^ (e + 1) -> binade q = e.
Proof.
  intros L U.
  assert (Hq : 0 < q) by (pose proof (pow2_pos e); lra).
  destruct (binade_spec q Hq) as [L' U'].
  assert (e < binade q + 1)%Z by (apply pow2_lt_inv; lra).
  assert (binade q < e + 1)%Z by (apply pow2_lt_inv; lra).
  lia.
Qed.

Lemma binade_comp (x y : Q) : 0 < x -> x == y -> binade x = binade y.
Proof.
  intros Hx E. destruct (binade_spec x Hx) as [L U].
  symmetry. apply binade_unique; rewrite <- E; assumption.
Qed.

Lemma nearest_comp (x y : Q) : 0 < x -> x == y -> nearest x == nearest y.
Proof.
  intros Hx E. unfold nearest. rewrite <- (binade_comp x y Hx E).
  rewrite (round_half_even_comp (x * _) (y * 2 ^ (52 - binade x))).
  - reflexivity.
  - apply Qmult_comp; [exact E | reflexivity].
Qed.

#[export] Instance double_comp : Proper (Qeq ==> Qeq) double.
Proof.
  intros x y E. unfold double. rewrite <- (Qcompare_comp _ _ E 0 0 (Qeq_refl 0)).
  destruct (Qcompare_spec x 0) as [H | H | H].
  - reflexivity.
  - apply Qopp_comp, nearest_comp; [lra | now rewrite E].
  - now apply nearest_comp.
Qed.

Lemma nearest_bounds (q : Q) :
  0 < q -> 2 ^ binade q <= nearest q /\ nearest q <= 2 ^ (binade q + 1).
Proof.
  intros Hq. destruct (binade_spec q Hq) as [L U]. unfold nearest.
  set (e := binade q) in *. pose proof (pow2_pos (52 - e)) as Hs.
  assert (E1 : 2 ^ e * 2 ^ (52 - e) == inject_Z (2 ^ 52)).
  { rewrite <- pow2_add, pow2_inject by lia. now replace (e + (52 - e))%Z with 52%Z by lia. }
  assert (E2 : 2 ^ (e + 1) * 2 ^ (52 - e) == inject_Z (2 ^ 53)).
  { rewrite <- pow2_add, pow2_inject by lia.
    now replace (e + 1 + (52 - e))%Z with 53%Z by lia. }
  split.
  - apply Qle_shift_div_l; [exact Hs |]. rewrite E1, <- Zle_Qle.
    apply round_half_even_lower. rewrite <- E1.
    apply Qmult_le_compat_r; lra.
  - apply Qle_shift_div_r; [exact Hs |]. rewrite E2, <- Zle_Qle.
    apply round_half_even_upper. rewrite <- E2.
    apply Qmult_le_compat_r; lra.
Qed.

Lemma nearest_monotone (x y : Q) : 0 < x -> x <= y -> nearest x <= nearest y.
Proof.
  intros Hx Hxy. assert (Hy : 0 < y) by lra.
  destruct (binade_spec x Hx) as [Lx Ux]. destruct (binade_spec y Hy) as [Ly Uy].
  destruct (Z.eq_dec (binade x) (binade y)) as [E | N].
  - unfold nearest. rewrite E. pose proof (pow2_pos (52 - binade y)) as Hs.
    apply Qmult_le_compat_r.
    + rewrite <- Zle_Qle. apply round_half_even_monotone.
      apply Qmult_le_compat_r; lra.
    + apply Qlt_le_weak, Qinv_lt_0_compat, Hs.
  - assert (binade x < binade y + 1)%Z by (apply pow2_lt_inv; lra).
    destruct (nearest_bounds x Hx) as [_ Bx]. destruct (nearest_bounds y Hy) as [By _].
    pose proof (pow2_le (binade x + 1) (binade y) ltac:(lia)). lra.
Qed.

Lemma double_zero : double 0 = 0.
Proof. reflexivity. Qed.

Lemma double_nonneg (x : Q) : 0 <= x -> 0 <= double x.
Proof.
  intros H. unfold double. destruct (Qcompare_spec x 0) as [E | L | G]; try lra.
  destruct (nearest_bounds x G) as [B _]. pose proof (pow2_pos (binade x)). lra.
Qed.

(** Rounding to the nearest double keeps the order of non-negative
    numbers. *)
Lemma double_monotone (x y : Q) : 0 <= x -> x <= y -> double x <= double y.
Proof.
  intros Hx Hxy. unfold double at 1.
  destruct (Qcompare_spec x 0) as [E | L | G]; try lra.
  - apply double_nonneg. lra.
  - unfold double. destruct (Qcompare_spec y 0) as [E | L | G']; try lra.
    now apply nearest_monotone.
Qed.

Lemma fadd_monotone (x x' y y' : Q) :
  0 <= x -> 0 <= y -> x <= x' -> y <= y' -> fadd x y <= fadd x' y'.
Proof.
  intros Hx Hy Hxx Hyy. unfold fadd.
  pose proof (double_nonneg x Hx). pose proof (double_nonneg y Hy).
  pose proof (double_monotone x x' Hx Hxx). pose proof (double_monotone y y' Hy Hyy).
  apply double_monotone; lra.
Qed.

Lemma fmul_monotone (x x' y y' : Q) :
  0 <= x -> 0 <= y -> x <= x' -> y <= y' -> fmul x y <= fmul x' y'.
Proof.
  intros Hx Hy Hxx Hyy. unfold fmul.
  pose proof (double_nonneg x Hx) as Dx. pose proof (double_nonneg y Hy) as Dy.
  pose proof (double_monotone x x' Hx Hxx) as Mx.
  pose proof (double_monotone y y' Hy Hyy) as My.
  apply double_monotone; [now apply Qmult_le_0_compat |].
  apply Qle_trans with (double x * double y').
  - rewrite !(Qmult_comm (double x)). apply Qmult_le_compat_r; assumption.
  - apply Qmult_le_compat_r; lra.
Qed.

Lemma fmul_nonneg (x y : Q) : 0 <= x -> 0 <= y -> 0 <= fmul x y.
Proof.
  intros Hx Hy. unfold fmul. apply double_nonneg, Qmult_le_0_compat;
    now apply double_nonneg.
Qed.

Lemma fmul_zero_r (x : Q) : fmul x 0.0 == 0.
Proof.
  unfold fmul. change (double 0.0) with 0. now rewrite Qmult_0_r.
Qed.






Lemma fadd_comm (x y : Q) : fadd x y == fadd y x.
Proof. unfold fadd. now rewrite Qplus_comm. Qed.


End Doubles.


Section RoundedDoubles.
Import Py.

(** A rounded draw [round(a + (b-a)*u, n)] lies between the rounded draws
    at [u = 0] and at [u = 1]. *)
Lemma rounded_uniform_between (a b lo hi u : Q) (n : nat) :
  0 <= u /\ u < 1 -> 0 <= a -> 0 <= fsub b a ->
  lo <= round (fadd a (fmul (fsub b a) 0)) n ->
  round (fadd a (fmul (fsub b a) 1)) n <= hi ->
  lo <= round (fadd a (fmul (fsub b a) u)) n /\
  round (fadd a (fmul (fsub b a) u)) n <= hi.
Proof.
  intros [U0 U1] Ha Hd Hlo Hhi.
  assert (L : fadd a (fmul (fsub b a) 0) <= fadd a (fmul (fsub b a) u)).
  { apply fadd_monotone; try lra.
    - apply fmul_nonneg; lra.
    - apply fmul_monotone; lra. }
  assert (H : fadd a (fmul (fsub b a) u) <= fadd a (fmul (fsub b a) 1)).
  { apply fadd_monotone; try lra.
    - apply fmul_nonneg; lra.
    - apply fmul_monotone; lra. }
  split.
  - eapply Qle_trans; [exact Hlo | now apply round_monotone].
  - eapply Qle_trans; [apply round_monotone, H | exact Hhi].
Qed.

(** A rounded product of two non-negative floats lies between the rounded
    products of their bounds. *)
Lemma rounded_product_between (vlo vhi clo chi lo hi v c : Q) (n : nat) :
  0 <= vlo -> 0 <= clo -> vlo <= v /\ v <= vhi -> clo <= c /\ c <= chi ->
  lo <= round (fmul vlo clo) n -> round (fmul vhi chi) n <= hi ->
  lo <= round (fmul v c) n /\ round (fmul v c) n <= hi.
Proof.
  intros Hv Hc [V1 V2] [C1 C2] Hlo Hhi. split.
  - eapply Qle_trans; [exact Hlo |]. apply round_monotone, fmul_monotone; lra.
  - eapply Qle_trans; [| exact Hhi]. apply round_monotone, fmul_monotone; lra.
Qed.

End RoundedDoubles.

(* ================================================================= *)
(** ** The random source and loops over it *)

Section Drawing.
Import Py Random.

Lemma unit_draws_next (g : state) :
  unit_draws g -> unit_draws (fun n => g (S n)).
Proof. intros H n. apply H. Qed.

Lemma quarters_unit : unit_draws Spec.quarters.
Proof.
  intros n. pose proof (Nat.mod_upper_bound n 4 ltac:(discriminate)) as H.
  unfold Spec.quarters, Qle, Qlt, Qnum, Qden. lia.
Qed.

(** A loop establishes a property of each result from an invariant of the
    state. *)
Lemma for_each_Forall2 {A B : Type} (I : state -> Prop) (P : A -> B -> Prop)
  (body : A -> Rand B) :
  (forall x g, I g -> P x (fst (body x g)) /\ I (snd (body x g))) ->
  forall l g, I g ->
    Forall2 P l (fst (for_each l body g)) /\ I (snd (for_each l body g)).
Proof.
  intros Hbody l. induction l as [| x l IH]; intros g Hg; cbn.
  - split; [constructor | assumption].
  - unfold bind. destruct (Hbody x g Hg) as [Hx Hg'].
    destruct (body x g) as [y g']. cbn in *.
    destruct (IH g' Hg') as [Hl Hg''].
    destruct (for_each l body g') as [ys g'']. cbn in *.
    split; [constructor |]; assumption.
Qed.

Lemma for_each_length {A B : Type} (body : A -> Rand B) (l : list A) (g : state) :
  List.length (fst (for_each l body g)) = List.length l.
Proof.
  destruct (for_each_Forall2 (fun _ => True) (fun _ _ => True) body
              (fun _ _ _ => conj I I) l g I) as [H _].
  symmetry. eapply Forall2_length, H.
Qed.

Lemma enumerate_length {A : Type} (l : list A) (start : nat) :
  List.length (enumerate l start) = List.length l.
Proof.
  unfold enumerate. rewrite length_combine, length_seq. apply Nat.min_id.
Qed.

Lemma enumerate_cons {A : Type} (x : A) (l : list A) (start : nat) :
  enumerate (x :: l) start = (start, x) :: enumerate l (S start).
Proof. reflexivity. Qed.

Lemma map_snd_enumerate {A : Type} (l : list A) (start : nat) :
  map snd (enumerate l start) = l.
Proof.
  revert start. induction l as [| x l IH]; intros start; [reflexivity |].
  rewrite enumerate_cons. cbn. now rewrite IH.
Qed.

Lemma map_fst_enumerate {A : Type} (l : list A) (start : nat) :
  map fst (enumerate l start) = seq start (List.length l).
Proof.
  revert start. induction l as [| x l IH]; intros start; [reflexivity |].
  rewrite enumerate_cons. cbn. now rewrite IH.
Qed.

(** A property of the second components that holds along [enumerate]. *)
Lemma Forall2_enumerate {A B : Type} (P : nat -> A -> B -> Prop)
  (l : list A) (start : nat) (ys : list B) :
  Forall2 (fun ix y => P (fst ix) (snd ix) y) (enumerate l start) ys ->
  Forall2 (fun x y => exists i, P i x y) l ys.
Proof.
  revert start ys. induction l as [| x l IH]; intros start ys H.
  - inversion H. constructor.
  - rewrite enumerate_cons in H. inversion H as [| ? y ? ys' Hx Hl]; subst.
    constructor; [now exists start | eauto].
Qed.

End Drawing.

(* ================================================================= *)
(** ** One reading *)

Ltac decimal := unfold Spec.decimals; vm_compute; reflexivity.

(** Bounds of a rounded draw, from the rounded draws at 0 and at 1. *)
Ltac rounded_uniform Hg :=
  apply rounded_uniform_between;
  [ apply Hg | vm_compute; discriminate .. ].

Section Reading.
Import Py Random Pandas Spec.

Lemma voltage_base_cases (cell_type : string) :
  CellMain.voltage_base cell_type = 3.2 \/ CellMain.voltage_base cell_type = 3.6.
Proof.
  unfold CellMain.voltage_base. destruct (String.eqb cell_type "lfp"); auto.
Qed.

(** The dictionary [generate_cell_data] builds for one cell. *)
Lemma generate_row_shape (idx : nat) (cell_type mode : string) (g : state) :
  exists v c t,
    fst (CellMain.generate_row idx cell_type mode g)
      = reading_dict ("Cell_" ++ str_of_nat idx) (upper cell_type) mode v c t /\
    decimals 2 v /\ decimals 2 c /\
    (unit_draws g ->
       branch_bounds (CellMain.voltage_base cell_type) mode v c /\
       (25 <= t /\ t <= 40) /\
       unit_draws (snd (CellMain.generate_row idx cell_type mode g))).
Proof.
  unfold CellMain.generate_row, branch_bounds, bind, uniform, random, ret.
  destruct (String.eqb mode "Charging");
    [| destruct (String.eqb mode "Discharging")].
  - cbv beta iota; cbn [fst snd]. eexists _, _, _. split; [reflexivity |].
    split; [apply round_idempotent |]. split; [apply round_idempotent |].
    intros Hg.
    pose proof (unit_draws_next _ Hg) as Hg1.
    pose proof (unit_draws_next _ Hg1) as Hg2.
    pose proof (unit_draws_next _ Hg2) as Hg3.
    split; [split |].
    + destruct (voltage_base_cases cell_type) as [-> | ->]; rounded_uniform Hg.
    + rounded_uniform Hg1.
    + split; [rounded_uniform Hg2 | exact Hg3].
  - cbv beta iota; cbn [fst snd]. eexists _, _, _. split; [reflexivity |].
    split; [apply round_idempotent |]. split; [apply round_idempotent |].
    intros Hg.
    pose proof (unit_draws_next _ Hg) as Hg1.
    pose proof (unit_draws_next _ Hg1) as Hg2.
    pose proof (unit_draws_next _ Hg2) as Hg3.
    split; [split |].
    + destruct (voltage_base_cases cell_type) as [-> | ->]; rounded_uniform Hg.
    + rounded_uniform Hg1.
    + split; [rounded_uniform Hg2 | exact Hg3].
  - cbv beta iota; cbn [fst snd]. eexists _, _, _. split; [reflexivity |].
    split; [apply round_idempotent |]. split; [decimal |].
    intros Hg.
    pose proof (unit_draws_next _ Hg) as Hg1.
    pose proof (unit_draws_next _ Hg1) as Hg2.
    split; [split |].
    + destruct (voltage_base_cases cell_type) as [-> | ->]; rounded_uniform Hg.
    + reflexivity.
    + split; [rounded_uniform Hg1 | exact Hg2].
Qed.

End Reading.

Section Fleet.
Import Py Random Pandas Spec.

(** The dictionary [main.py] builds for one cell. *)
Lemma plain_row_shape (idx : nat) (cell_type : string) (g : state) :
  exists c t,
    fst (Main.generate_row idx cell_type g)
      = plain_dict ("Cell_" ++ str_of_nat idx) (upper cell_type)
          (CellMain.voltage_base cell_type) c t /\
    decimals 2 (CellMain.voltage_base cell_type) /\ decimals 2 c /\
    (unit_draws g ->
       (0.5 <= c /\ c <= 5.0) /\ (25 <= t /\ t <= 40) /\
       unit_draws (snd (Main.generate_row idx cell_type g))).
Proof.
  unfold Main.generate_row, bind, uniform, random, ret.
  cbv beta iota; cbn [fst snd]. eexists _, _. split; [reflexivity |].
  split; [destruct (voltage_base_cases cell_type) as [-> | ->]; decimal |].
  split; [apply round_idempotent |].
  intros Hg.
  pose proof (unit_draws_next _ Hg) as Hg1.
  pose proof (unit_draws_next _ Hg1) as Hg2.
  split; [rounded_uniform Hg | split; [rounded_uniform Hg1 | exact Hg2]].
Qed.

Lemma generate_rows_shape (cell_selection : list string) (mode : string) (g : state) :
  Forall2 (reading_at false mode) (enumerate cell_selection 1)
          (fst (CellMain.generate_rows cell_selection mode g)).
Proof.
  unfold CellMain.generate_rows.
  apply (for_each_Forall2 (fun _ => True)); [| exact I].
  intros [idx cell_type] g' _. split; [| exact I].
  destruct (generate_row_shape idx cell_type mode g') as (v & c & t & E & Hv & Hc & _).
  exists v, c, t. repeat split; trivial; discriminate.
Qed.

Lemma generate_rows_bounded (cell_selection : list string) (mode : string) (g : state) :
  unit_draws g ->
  Forall2 (reading_at true mode) (enumerate cell_selection 1)
          (fst (CellMain.generate_rows cell_selection mode g)).
Proof.
  unfold CellMain.generate_rows. intros Hg.
  apply (for_each_Forall2 unit_draws); [| exact Hg].
  intros [idx cell_type] g' Hg'.
  destruct (generate_row_shape idx cell_type mode g') as (v & c & t & E & Hv & Hc & H).
  destruct (H Hg') as (Hb & Ht & Hnext).
  split; [| exact Hnext]. exists v, c, t. repeat split; trivial; apply Ht.
Qed.

Lemma plain_rows_shape (cell_selection : list string) (g : state) :
  Forall2 (plain_at false) (enumerate cell_selection 1)
          (fst (Main.generate_rows cell_selection g)).
Proof.
  unfold Main.generate_rows.
  apply (for_each_Forall2 (fun _ => True)); [| exact I].
  intros [idx cell_type] g' _. split; [| exact I].
  destruct (plain_row_shape idx cell_type g') as (c & t & E & Hv & Hc & _).
  exists c, t. repeat split; trivial; discriminate.
Qed.

Lemma plain_rows_bounded (cell_selection : list string) (g : state) :
  unit_draws g ->
  Forall2 (plain_at true) (enumerate cell_selection 1)
          (fst (Main.generate_rows cell_selection g)).
Proof.
  unfold Main.generate_rows. intros Hg.
  apply (for_each_Forall2 unit_draws); [| exact Hg].
  intros [idx cell_type] g' Hg'.
  destruct (plain_row_shape idx cell_type g') as (c & t & E & Hv & Hc & H).
  destruct (H Hg') as (Hb & Ht & Hnext).
  split; [| exact Hnext]. exists c, t. repeat split; trivial; try apply Hb; apply Ht.
Qed.

Lemma records_generate_cell_data (cell_selection : list string) (mode : string) (g : state) :
  records (fst (CellMain.generate_cell_data cell_selection mode g))
  = fst (CellMain.generate_rows cell_selection mode g).
Proof.
  unfold CellMain.generate_cell_data, bind, ret.
  now destruct (CellMain.generate_rows cell_selection mode g).
Qed.

Lemma Forall2_weaken {A B : Type} (P Q : A -> B -> Prop) (l : list A) (ys : list B) :
  (forall x y, P x y -> Q x y) -> Forall2 P l ys -> Forall2 Q l ys.
Proof. intros H F. induction F; constructor; auto. Qed.

Lemma Forall2_right {A B : Type} (Q : B -> Prop) (l : list A) (ys : list B) :
  Forall2 (fun _ y => Q y) l ys -> Forall Q ys.
Proof. intros F. induction F; constructor; auto. Qed.

(** From positions back to the selection itself. *)
Lemma Forall2_selection {B : Type} (P : string -> B -> Prop)
  (l : list string) (start : nat) (ys : list B) :
  Forall2 (fun ix y => P (snd ix) y) (enumerate l start) ys -> Forall2 P l ys.
Proof.
  revert start ys. induction l as [| x l IH]; intros start ys H.
  - inversion H. constructor.
  - rewrite enumerate_cons in H. inversion H as [| ? y ? ys' Hx Hl]; subst.
    constructor; [exact Hx | eauto].
Qed.

End Fleet.

Section Readings.
Import Py Random Pandas Spec.

(** C1. In every reading either script generates, whatever the cell types
    and the mode, the capacity field is [round(voltage * current, 2)] of the
    reading's own voltage and current fields, the product being the one of
    the two doubles, and these two fields already have two decimals. *)
Theorem capacity_is_derived (cell_selection : list string) (mode : string)
  (g : state) :
  Forall capacity_derived
    (records (fst (CellMain.generate_cell_data cell_selection mode g))) /\
  Forall capacity_derived (fst (Main.generate_rows cell_selection g)).
Proof.
  split.
  - rewrite records_generate_cell_data.
    apply Forall2_right with (l := enumerate cell_selection 1).
    eapply Forall2_weaken; [| apply generate_rows_shape].
    intros ix row (v & c & t & -> & Hv & Hc & _). exists v, c. now repeat split.
  - apply Forall2_right with (l := enumerate cell_selection 1).
    eapply Forall2_weaken; [| apply plain_rows_shape].
    intros ix row (c & t & -> & Hv & Hc & _).
    exists (CellMain.voltage_base (snd ix)), c. now repeat split.
Qed.

Lemma branch_documented (base : Q) (mode id ty : string) (v c t : Q) :
  branch_bounds base mode v c -> 25 <= t /\ t <= 40 ->
  documented_bounds base mode (reading_dict id ty mode v c t).
Proof.
  intros Hb Ht. unfold documented_bounds, within.
  split; [| split; [| split]].
  - intros ->. destruct Hb as [Hv Hc]. split; [exists v | exists c]; now split.
  - intros ->. destruct Hb as [Hv Hc]. split; [exists v | exists c]; now split.
  - intros ->. destruct Hb as [Hv Hc]. split; [exists v; now split | now rewrite Hc].
  - exists t. now split.
Qed.

(** The readings lie within the documented bounds around the base voltage
    the generator picks for the string it is given. *)
Lemma readings_around_base (cell_selection : list string) (mode : string)
  (g : state) :
  unit_draws g ->
  Forall2 (fun cell_type row =>
             documented_bounds (CellMain.voltage_base cell_type) mode row)
          cell_selection
          (records (fst (CellMain.generate_cell_data cell_selection mode g))).
Proof.
  intros Hg. rewrite records_generate_cell_data.
  apply Forall2_selection with (start := 1%nat).
  eapply Forall2_weaken; [| apply generate_rows_bounded, Hg].
  intros ix row (v & c & t & -> & _ & _ & H).
  destruct (H eq_refl). now apply branch_documented.
Qed.

End Readings.

(* ================================================================= *)
(** ** Insertion-ordered key sets and column indexes *)

Section Keys.
Import Py Pandas.

Lemma existsb_eqb_In (k : string) (l : list string) :
  existsb (String.eqb k) l = true <-> In k l.
Proof.
  rewrite existsb_exists. split.
  - intros (x & Hx & E). apply String.eqb_eq in E. now subst.
  - intros H. exists k. split; [assumption | apply String.eqb_refl].
Qed.

Lemma insert_key_In (acc : list string) (k x : string) :
  In x (insert_key acc k) <-> In x acc \/ x = k.
Proof.
  unfold insert_key. destruct (existsb (String.eqb k) acc) eqn:E.
  - apply existsb_eqb_In in E. split; [auto | intros [H | ->]; assumption].
  - rewrite in_app_iff. cbn. intuition.
Qed.

Lemma insert_key_NoDup (acc : list string) (k : string) :
  NoDup acc -> NoDup (insert_key acc k).
Proof.
  intros H. unfold insert_key. destruct (existsb (String.eqb k) acc) eqn:E; trivial.
  apply NoDup_app; trivial.
  - repeat constructor. intros [].
  - intros x Hx [<- | []]. apply existsb_eqb_In in Hx. congruence.
Qed.

Lemma insert_key_length (acc : list string) (k : string) :
  (List.length (insert_key acc k) <= S (List.length acc))%nat.
Proof.
  unfold insert_key. destruct (existsb _ _); [lia |].
  rewrite length_app. cbn. lia.
Qed.

Lemma insert_key_present (acc : list string) (k : string) :
  In k acc -> insert_key acc k = acc.
Proof.
  intros H. unfold insert_key. apply existsb_eqb_In in H. now rewrite H.
Qed.

Lemma fold_insert_In (l acc : list string) (x : string) :
  In x (fold_left insert_key l acc) <-> In x acc \/ In x l.
Proof.
  revert acc. induction l as [| k l IH]; intros acc; cbn.
  - intuition.
  - rewrite IH, insert_key_In. intuition.
Qed.

Lemma fold_insert_NoDup (l acc : list string) :
  NoDup acc -> NoDup (fold_left insert_key l acc).
Proof.
  revert acc. induction l as [| k l IH]; intros acc H; cbn; trivial.
  apply IH, insert_key_NoDup, H.
Qed.

Lemma fold_insert_length (l acc : list string) :
  (List.length (fold_left insert_key l acc) <= List.length acc + List.length l)%nat.
Proof.
  revert acc. induction l as [| k l IH]; intros acc; cbn; [lia |].
  pose proof (IH (insert_key acc k)). pose proof (insert_key_length acc k). lia.
Qed.

Lemma fold_insert_present (l acc : list string) :
  Forall (fun k => In k acc) l -> fold_left insert_key l acc = acc.
Proof.
  induction 1 as [| k l Hk _ IH]; cbn; trivial.
  now rewrite insert_key_present.
Qed.

Lemma dict_fromkeys_In (l : list string) (x : string) :
  In x (dict_fromkeys l) <-> In x l.
Proof. unfold dict_fromkeys. rewrite fold_insert_In. cbn. intuition. Qed.

Lemma dict_fromkeys_NoDup (l : list string) : NoDup (dict_fromkeys l).
Proof. apply fold_insert_NoDup. constructor. Qed.

Lemma dict_fromkeys_length (l : list string) :
  (List.length (dict_fromkeys l) <= List.length l)%nat.
Proof. apply (fold_insert_length l []). Qed.

(** The column index of a non-empty list of rows that all have the key
    list [K]. *)
Lemma columns_uniform (K : list string) (rows : list dict) :
  rows <> [] -> Forall (fun r => keys r = K) rows -> dict_fromkeys K = K ->
  columns (from_records rows) = K.
Proof.
  intros Hne Hrows HK. destruct rows as [| r rows]; [congruence |].
  inversion Hrows as [| ? ? Hr Hrest]; subst.
  unfold from_records, columns, dict_fromkeys. cbn [flat_map].
  rewrite fold_left_app. fold (dict_fromkeys (keys r)). rewrite HK.
  apply fold_insert_present.
  clear Hrows Hne HK. induction Hrest as [| r' rows' Hr' _ IH]; cbn; [constructor |].
  apply Forall_app. split; [| exact IH].
  rewrite Hr'. apply Forall_forall. auto.
Qed.

Lemma getitem_column (df : DataFrame) (k : string) :
  In k (columns df) -> getitem df k = inr (map (cell k) (records df)).
Proof.
  intros H. unfold getitem. apply existsb_eqb_In in H. now rewrite H.
Qed.

Lemma getitem_missing (df : DataFrame) (k : string) :
  ~ In k (columns df) -> getitem df k = inl (KeyError k).
Proof.
  intros H. unfold getitem.
  destruct (existsb (String.eqb k) (columns df)) eqn:E; trivial.
  apply existsb_eqb_In in E. contradiction.
Qed.

(** A column of floats has its numbers, one per row. *)
Lemma numbers_floats (k : string) (rows : list dict) :
  Forall (fun r => exists q, get r k = Some (VFloat q)) rows ->
  exists qs, numbers (map (cell k) rows) = inr qs /\
             List.length qs = List.length rows.
Proof.
  induction 1 as [| r rows (q & Hq) _ (qs & E & L)]; cbn.
  - now exists [].
  - rewrite E. unfold cell. rewrite Hq. exists (q :: qs). cbn. now rewrite L.
Qed.

Lemma mean_floats (k : string) (rows : list dict) :
  rows <> [] ->
  Forall (fun r => exists q, get r k = Some (VFloat q)) rows ->
  exists q, mean (map (cell k) rows) = inr (VFloat q).
Proof.
  intros Hne H. destruct (numbers_floats k rows H) as (qs & E & L).
  unfold mean. rewrite E. destruct qs as [| q qs].
  - destruct rows; [congruence | discriminate].
  - eauto.
Qed.

Lemma sum_floats (k : string) (rows : list dict) :
  Forall (fun r => exists q, get r k = Some (VFloat q)) rows ->
  exists q, sum (map (cell k) rows) = inr (VFloat q).
Proof.
  intros H. destruct (numbers_floats k rows H) as (qs & E & L).
  unfold sum. rewrite E. eauto.
Qed.

End Keys.

(* ================================================================= *)
(** ** Frames and their aggregation *)

Section Frames.
Import Py Random Pandas Spec.

Lemma generate_cell_data_frame (cell_selection : list string) (mode : string) (g : state) :
  fst (CellMain.generate_cell_data cell_selection mode g)
  = from_records (fst (CellMain.generate_rows cell_selection mode g)).
Proof.
  unfold CellMain.generate_cell_data, bind, ret.
  now destruct (CellMain.generate_rows cell_selection mode g).
Qed.

Lemma generate_cell_data_state (cell_selection : list string) (mode : string) (g : state) :
  snd (CellMain.generate_cell_data cell_selection mode g)
  = snd (CellMain.generate_rows cell_selection mode g).
Proof.
  unfold CellMain.generate_cell_data, bind, ret.
  now destruct (CellMain.generate_rows cell_selection mode g).
Qed.

Lemma generate_rows_length (cell_selection : list string) (mode : string) (g : state) :
  List.length (fst (CellMain.generate_rows cell_selection mode g))
  = List.length cell_selection.
Proof.
  unfold CellMain.generate_rows. now rewrite for_each_length, enumerate_length.
Qed.

Lemma plain_rows_length (cell_selection : list string) (g : state) :
  List.length (fst (Main.generate_rows cell_selection g))
  = List.length cell_selection.
Proof.
  unfold Main.generate_rows. now rewrite for_each_length, enumerate_length.
Qed.

Lemma nonempty_length {A B : Type} (l : list A) (l' : list B) :
  List.length l' = List.length l -> l <> [] -> l' <> [].
Proof. destruct l, l'; cbn; congruence. Qed.

Lemma generated_columns (cell_selection : list string) (mode : string) (g : state) :
  cell_selection <> [] ->
  columns (fst (CellMain.generate_cell_data cell_selection mode g))
  = CELL_MAIN_COLUMNS.
Proof.
  intros Hne. rewrite generate_cell_data_frame. apply columns_uniform.
  - eapply nonempty_length; [apply generate_rows_length | exact Hne].
  - apply Forall2_right with (l := enumerate cell_selection 1).
    eapply Forall2_weaken; [| apply generate_rows_shape].
    now intros ix row (v & c & t & -> & _).
  - reflexivity.
Qed.

Lemma plain_columns (cell_selection : list string) (g : state) :
  cell_selection <> [] ->
  columns (from_records (fst (Main.generate_rows cell_selection g)))
  = MAIN_COLUMNS.
Proof.
  intros Hne. apply columns_uniform.
  - eapply nonempty_length; [apply plain_rows_length | exact Hne].
  - apply Forall2_right with (l := enumerate cell_selection 1).
    eapply Forall2_weaken; [| apply plain_rows_shape].
    now intros ix row (c & t & -> & _).
  - reflexivity.
Qed.

Lemma generated_telemetry (cell_selection : list string) (mode : string) (g : state) :
  cell_selection <> [] ->
  telemetry_frame (fst (CellMain.generate_cell_data cell_selection mode g)).
Proof.
  intros Hne. unfold telemetry_frame, float_column.
  rewrite generated_columns by assumption.
  rewrite records_generate_cell_data.
  split; [eapply nonempty_length; [apply generate_rows_length | exact Hne] |].
  split; [cbn; auto |].
  repeat split; try (cbn; tauto);
    apply Forall2_right with (l := enumerate cell_selection 1);
    (eapply Forall2_weaken; [| apply generate_rows_shape]);
    intros ix row (v & c & t & -> & _); eexists; reflexivity.
Qed.

Lemma plain_telemetry (cell_selection : list string) (g : state) :
  cell_selection <> [] ->
  telemetry_frame (from_records (fst (Main.generate_rows cell_selection g))).
Proof.
  intros Hne. unfold telemetry_frame, float_column.
  rewrite plain_columns by assumption.
  cbn [records from_records].
  split; [eapply nonempty_length; [apply plain_rows_length | exact Hne] |].
  split; [cbn; auto |].
  repeat split; try (cbn; tauto);
    apply Forall2_right with (l := enumerate cell_selection 1);
    (eapply Forall2_weaken; [| apply plain_rows_shape]);
    intros ix row (c & t & -> & _); eexists; reflexivity.
Qed.

Lemma column_mean (df : DataFrame) (k : string) :
  records df <> [] -> float_column df k ->
  exists q, (s <-? getitem df k ;; mean s) = inr (VFloat q).
Proof.
  intros Hne [Hk Hf]. rewrite (getitem_column df k Hk). cbn.
  now apply mean_floats.
Qed.

Lemma column_sum (df : DataFrame) (k : string) :
  float_column df k ->
  exists q, (s <-? getitem df k ;; sum s) = inr (VFloat q).
Proof.
  intros [Hk Hf]. rewrite (getitem_column df k Hk). cbn.
  now apply sum_floats.
Qed.

(** On such a frame the four statistics are numbers. *)
Lemma show_metrics_succeeds (df : DataFrame) :
  telemetry_frame df ->
  exists v c t w,
    CellMain.show_metrics df
    = inr (CellMain.mkMetrics (VFloat v) (VFloat c) (VFloat t) (VFloat w)).
Proof.
  intros (Hne & _ & Hv & Hc & Ht & Hw). unfold CellMain.show_metrics.
  destruct (column_mean df VOLTAGE Hne Hv) as (v & ->).
  destruct (column_mean df CURRENT Hne Hc) as (c & ->).
  destruct (column_mean df TEMP Hne Ht) as (t & ->).
  destruct (column_sum df CAPACITY Hw) as (w & ->).
  now exists v, c, t, w.
Qed.

Lemma performance_record_succeeds (time : nat) (mode : string) (df : DataFrame) :
  telemetry_frame df ->
  exists v c t w,
    CellMain.performance_record time mode df
    = inr [ ("Time", VInt (Z.of_nat time)); ("Mode", VStr mode);
            ("Avg Voltage", VFloat v); ("Avg Current", VFloat c);
            ("Avg Temp", VFloat t); ("Total Capacity", VFloat w) ].
Proof.
  intros (Hne & _ & Hv & Hc & Ht & Hw). unfold CellMain.performance_record.
  destruct (column_mean df VOLTAGE Hne Hv) as (v & ->).
  destruct (column_mean df CURRENT Hne Hc) as (c & ->).
  destruct (column_mean df TEMP Hne Ht) as (t & ->).
  destruct (column_sum df CAPACITY Hw) as (w & ->).
  now exists v, c, t, w.
Qed.

Lemma show_charts_succeeds (df : DataFrame) :
  telemetry_frame df -> exists series, CellMain.show_charts df = inr series.
Proof.
  intros (_ & Hid & [Hv _] & [Hc _] & [Ht _] & [Hw _]).
  unfold CellMain.show_charts, CellMain.indexed_by_cell.
  rewrite (getitem_column df "Cell ID" Hid).
  rewrite (getitem_column df _ Ht), (getitem_column df _ Hw). cbn. eauto.
Qed.

(** The empty frame has no column, and the first lookup raises. *)
Lemma show_metrics_empty :
  CellMain.show_metrics (from_records []) = inl (KeyError VOLTAGE).
Proof. reflexivity. Qed.

End Frames.

Section Case.
Import Py Spec.

Lemma lower_ascii_idempotent (c : ascii) : lower_ascii (lower_ascii c) = lower_ascii c.
Proof. destruct c as [[] [] [] [] [] [] [] []]; reflexivity. Qed.

Lemma lower_upper_ascii (c : ascii) : lower_ascii (upper_ascii c) = lower_ascii c.
Proof. destruct c as [[] [] [] [] [] [] [] []]; reflexivity. Qed.

(** Case variants have the same lower-case form. *)
Lemma case_variant_lower (s t : string) : case_variant s t -> lower s = lower t.
Proof.
  induction 1 as [| c1 c2 s1 s2 Hc _ IH]; [reflexivity |].
  unfold lower in *. cbn. rewrite IH. f_equal.
  destruct Hc as [-> | [-> | ->]];
    auto using lower_ascii_idempotent, lower_upper_ascii.
Qed.

Lemma case_variant_refl (s : string) : case_variant s s.
Proof. induction s; constructor; auto. Qed.

End Case.

Section Tags.
Import Py Random Pandas Spec.

Lemma dashboard_generates (selected : list string) (mode : string) (g : state) :
  selected <> [] ->
  exists m,
    fst (CellMain.dashboard selected mode true g)
    = CellMain.Generated
        (fst (CellMain.generate_cell_data (map lower selected) mode g)) m
        (String.concat "," CELL_MAIN_COLUMNS).
Proof.
  intros Hne. unfold CellMain.dashboard.
  assert (Hl : map lower selected <> []) by (destruct selected; [congruence | discriminate]).
  destruct (map lower selected) as [| c cs] eqn:E; [congruence |].
  unfold bind, ret.
  pose proof (generated_telemetry (c :: cs) mode g Hl) as Ht.
  pose proof (generated_columns (c :: cs) mode g Hl) as Hc.
  destruct (CellMain.generate_cell_data (c :: cs) mode g) as [df g']. cbn [fst] in *.
  destruct (show_metrics_succeeds df Ht) as (v & c' & t & w & ->).
  destruct (show_charts_succeeds df Ht) as (series & ->).
  unfold CellMain.download_csv, to_csv_header. rewrite Hc. eauto.
Qed.

(** C3 (amended). The generator compares the cell type with ["lfp"]
    exactly: the base voltage is 3.2 for that string and 3.6 for every
    other one.  The dashboard lower-cases the selected tags before it calls
    the generator, and on the lower-case form of any case variant of an
    enumerated tag the base voltage is the documented one: 3.2 for LFP, 3.6
    for the others. *)
Theorem base_voltage_by_tag :
  (forall cell_type,
      CellMain.voltage_base cell_type = 3.2 <-> cell_type = "lfp") /\
  (forall cell_type,
      cell_type <> "lfp" -> CellMain.voltage_base cell_type = 3.6) /\
  (forall tag s,
      In tag CellMain.AVAILABLE_CELL_TYPES -> case_variant s tag ->
      CellMain.voltage_base (lower s) = spec_base tag) /\
  (forall selected mode g,
      selected <> [] ->
      exists m h,
        fst (CellMain.dashboard selected mode true g)
        = CellMain.Generated
            (fst (CellMain.generate_cell_data (map lower selected) mode g)) m h).
Proof.
  split; [| split; [| split]].
  - intros cell_type. unfold CellMain.voltage_base.
    destruct (String.eqb_spec cell_type "lfp"); split; intros H; trivial;
      [discriminate H | contradiction].
  - intros cell_type H. unfold CellMain.voltage_base.
    destruct (String.eqb_spec cell_type "lfp"); [contradiction | reflexivity].
  - intros tag s H V. apply case_variant_lower in V. rewrite V.
    cbn in H. decompose [or] H; subst; try reflexivity. contradiction.
  - intros selected mode g Hne.
    destruct (dashboard_generates selected mode g Hne) as (m & E). eauto.
Qed.

Lemma base_voltage_by_tag_witness :
  In "LFP" CellMain.AVAILABLE_CELL_TYPES /\ case_variant "Lfp" "LFP" /\
  CellMain.voltage_base (lower "Lfp") = spec_base "LFP".
Proof.
  assert (HI : In "LFP" CellMain.AVAILABLE_CELL_TYPES) by (cbn; auto).
  assert (HV : case_variant "Lfp" "LFP").
  { apply cv_char; [left; reflexivity |].
    apply cv_char; [right; left; reflexivity |].
    apply cv_char; [right; left; reflexivity |]. apply cv_empty. }
  split; [exact HI | split; [exact HV |]].
  exact (proj1 (proj2 (proj2 base_voltage_by_tag)) "LFP" "Lfp" HI HV).
Defined.

(** C3 as stated fails on the generator: given the tag ["LFP"] in upper
    case it uses the base voltage 3.6, and in Idle mode returns a voltage
    outside the band around 3.2. *)
Lemma generator_is_case_sensitive :
  In "LFP" CellMain.AVAILABLE_CELL_TYPES /\ case_variant "LFP" "LFP" /\
  CellMain.voltage_base "LFP" = 3.6 /\
  ~ CellMain.voltage_base "LFP" == spec_base "LFP" /\
  exists v,
    map (fun row => get row VOLTAGE)
        (records (fst (CellMain.generate_cell_data ["LFP"] "Idle" quarters)))
    = [Some (VFloat v)] /\ v == 3.55 /\ ~ v <= 3.2 + 0.05.
Proof.
  split; [cbn; auto |]. split; [apply case_variant_refl |].
  split; [reflexivity |]. split; [intros H; vm_compute in H; discriminate |].
  eexists. split; [vm_compute; reflexivity |].
  split; [reflexivity | intros H; vm_compute in H; now apply H].
Qed.

Lemma lowered_base (tag s : string) :
  In tag CellMain.AVAILABLE_CELL_TYPES -> case_variant s tag ->
  CellMain.voltage_base (lower s) = spec_base tag.
Proof.
  intros H V. apply case_variant_lower in V. rewrite V.
  cbn in H. decompose [or] H; subst; try reflexivity. contradiction.
Qed.

Lemma Forall2_map_left {A B C : Type} (f : A -> B) (P : B -> C -> Prop)
  (l : list A) (ys : list C) :
  Forall2 P (map f l) ys -> Forall2 (fun x y => P (f x) y) l ys.
Proof.
  revert ys. induction l as [| x l IH]; intros ys H; inversion H; subst;
    constructor; auto.
Qed.

Lemma Forall2_through {A B C : Type} (R : A -> B -> Prop) (P : A -> C -> Prop)
  (Q : B -> C -> Prop) (l : list A) (l' : list B) (ys : list C) :
  (forall x x' y, R x x' -> P x y -> Q x' y) ->
  Forall2 R l l' -> Forall2 P l ys -> Forall2 Q l' ys.
Proof.
  intros H HR. revert ys. induction HR as [| x x' l l' Hx _ IH]; intros ys HP;
    inversion HP; subst; constructor; eauto.
Qed.

(** C2 (amended). With draws in [0, 1), every reading of
    [generate_cell_data] has its current and temperature within the
    documented bounds of the mode, and its voltage within the documented
    band around the base voltage the generator picks: 3.2 when the cell
    type it is given is exactly ["lfp"], 3.6 for any other string.  Given
    the enumerated tags in lower case, as the dashboard passes them, these
    are the bounds documented for the tag, whatever the case the tag was
    selected in. *)
Theorem readings_within_documented_bounds (cell_selection variants tags : list string)
  (mode : string) (g : state) :
  unit_draws g ->
  Forall2 (fun s tag => In tag CellMain.AVAILABLE_CELL_TYPES /\ case_variant s tag)
          variants tags ->
  Forall2 (fun cell_type row =>
             documented_bounds
               (if String.eqb cell_type "lfp" then 3.2 else 3.6) mode row)
          cell_selection
          (records (fst (CellMain.generate_cell_data cell_selection mode g))) /\
  Forall2 (fun tag row => documented_bounds (spec_base tag) mode row)
          tags
          (records (fst (CellMain.generate_cell_data (map lower variants) mode g))).
Proof.
  intros Hg HV. split; [exact (readings_around_base cell_selection mode g Hg) |].
  apply Forall2_through
    with (R := fun s tag =>
                 In tag CellMain.AVAILABLE_CELL_TYPES /\ case_variant s tag)
         (P := fun s row =>
                 documented_bounds (CellMain.voltage_base (lower s)) mode row)
         (l := variants); [| exact HV |].
  - intros s tag row [Htag Hs] B. now rewrite <- (lowered_base tag s Htag Hs).
  - apply (Forall2_map_left lower
             (fun cell_type row =>
                documented_bounds (CellMain.voltage_base cell_type) mode row)).
    exact (readings_around_base (map lower variants) mode g Hg).
Qed.

Lemma readings_within_documented_bounds_witness :
  Forall2 (fun tag row => documented_bounds (spec_base tag) "Idle" row)
          ["LFP"; "NiMH"]
          (records (fst (CellMain.generate_cell_data (map lower ["Lfp"; "NiMH"])
                           "Idle" quarters))).
Proof.
  refine (proj2 (readings_within_documented_bounds ["lfp"] ["Lfp"; "NiMH"]
                   ["LFP"; "NiMH"] "Idle" quarters quarters_unit _)).
  repeat (apply Forall2_cons; [split; [simpl; auto 10 |] |]).
  - apply cv_char; [left; reflexivity |].
    apply cv_char; [right; left; reflexivity |].
    apply cv_char; [right; left; reflexivity |]. apply cv_empty.
  - apply case_variant_refl.
  - apply Forall2_nil.
Defined.

(** C2 as stated fails on a valid pair: given the tag ["LFP"] as the
    specification spells it, in the mode Idle, the generator returns the
    voltage 3.55, outside the band documented around 3.2. *)
Lemma upper_case_tag_misses_band :
  In "LFP" CellMain.AVAILABLE_CELL_TYPES /\
  In "Idle" CellMain.OPERATING_MODES /\
  exists row,
    records (fst (CellMain.generate_cell_data ["LFP"] "Idle" quarters)) = [row] /\
    get row VOLTAGE = Some (VFloat 3.55) /\
    ~ documented_bounds (spec_base "LFP") "Idle" row.
Proof.
  split; [simpl; auto 10 |]. split; [simpl; auto |].
  eexists. split; [vm_compute; reflexivity |]. split; [reflexivity |].
  intros (_ & _ & H & _). destruct (H eq_refl) as [(q & E & _ & U) _].
  injection E as <-. vm_compute in U. now apply U.
Qed.

End Tags.

Section Snapshots.
Import Py Random Pandas Spec.

Lemma select_cells_In (selected : list string) (c : string) :
  In c (Main.select_cells selected) <->
  exists s, In s selected /\ s <> "" /\ lower s = c /\ strip c <> "".
Proof.
  unfold Main.select_cells. rewrite dict_fromkeys_In, filter_In, in_map_iff.
  rewrite negb_true_iff. split.
  - intros ((s & <- & Hs) & E). apply filter_In in Hs as [Hs Ht].
    exists s. repeat split; trivial.
    + intros ->. discriminate.
    + intros E'. rewrite E' in E. discriminate.
  - intros (s & Hs & Hne & <- & Hstrip). split.
    + exists s. split; trivial. apply filter_In. split; trivial.
      destruct s; [congruence | reflexivity].
    + destruct (String.eqb_spec (strip (lower s)) ""); congruence.
Qed.

Lemma select_cells_length (selected : list string) :
  (List.length (Main.select_cells selected) <= count_nonempty selected)%nat.
Proof.
  unfold Main.select_cells, count_nonempty.
  etransitivity; [apply dict_fromkeys_length |].
  etransitivity; [apply filter_length_le |]. now rewrite length_map.
Qed.

(** C4 (amended). [generate_cell_data] returns one reading for each element
    of the sequence it is given, empty strings included, in the order of the
    sequence; the reading at position [i] (from 1) has the cell id [Cell_i]
    and the upper-cased element as its type.  In [main.py] the sequence
    generated from is made of the distinct non-empty selections, lower-cased,
    so that script's snapshot has one reading per distinct selection, at
    most the number of non-empty selections. *)
Theorem snapshot_follows_selection (cell_selection : list string) (mode : string)
  (g : state) :
  let rows := records (fst (CellMain.generate_cell_data cell_selection mode g)) in
  let rows' := fst (Main.generate_rows (Main.select_cells cell_selection) g) in
  List.length rows = List.length cell_selection /\
  Forall2 (fun ix row =>
             get row "Cell ID" = Some (VStr ("Cell_" ++ str_of_nat (fst ix))) /\
             get row "Type" = Some (VStr (upper (snd ix))))
          (enumerate cell_selection 1) rows /\
  List.length rows' = List.length (Main.select_cells cell_selection) /\
  Forall2 (fun ix row =>
             get row "Cell ID" = Some (VStr ("Cell_" ++ str_of_nat (fst ix))) /\
             get row "Type" = Some (VStr (upper (snd ix))))
          (enumerate (Main.select_cells cell_selection) 1) rows' /\
  NoDup (Main.select_cells cell_selection) /\
  (forall c, In c (Main.select_cells cell_selection) <->
             exists s, In s cell_selection /\ s <> "" /\ lower s = c /\ strip c <> "") /\
  (List.length rows' <= count_nonempty cell_selection)%nat.
Proof.
  cbv zeta. rewrite records_generate_cell_data.
  split; [apply generate_rows_length |].
  split.
  { eapply Forall2_weaken; [| apply generate_rows_shape].
    intros ix row (v & c & t & -> & _). now split. }
  split; [apply plain_rows_length |].
  split.
  { eapply Forall2_weaken; [| apply plain_rows_shape].
    intros ix row (c & t & -> & _). now split. }
  split; [apply dict_fromkeys_NoDup |].
  split; [apply select_cells_In |].
  rewrite plain_rows_length. apply select_cells_length.
Qed.

(** C4 as stated fails: an empty string in the sequence given to
    [generate_cell_data] gets a reading of its own, and [main.py] gives two
    selections of the same type a single reading. *)
Lemma snapshot_length_differs :
  List.length
    (records (fst (CellMain.generate_cell_data [""; "lfp"] "Idle" quarters)))
  = 2%nat /\
  count_nonempty [""; "lfp"] = 1%nat /\
  List.length (fst (Main.generate_rows (Main.select_cells ["LFP"; "LFP"]) quarters))
  = 1%nat /\
  count_nonempty ["LFP"; "LFP"] = 2%nat.
Proof. repeat split; vm_compute; reflexivity. Qed.

(** C5 (amended). For a non-empty selection the header row of the exported
    file is [Cell ID, Type, Mode, 🔋 Voltage (V), ⚡ Current (A),
    🌡️ Temp (°C), ⚙️ Capacity (Wh)] in [cell_main.py], whose generator takes a
    mode, and the same without [Mode] in [main.py], which has no mode. *)
Theorem exported_header (cell_selection : list string) (mode : string) (g : state) :
  cell_selection <> [] ->
  CellMain.download_csv (fst (CellMain.generate_cell_data cell_selection mode g))
  = "Cell ID,Type,Mode,🔋 Voltage (V),⚡ Current (A),🌡️ Temp (°C),⚙️ Capacity (Wh)" /\
  to_csv_header (from_records (fst (Main.generate_rows cell_selection g)))
  = "Cell ID,Type,🔋 Voltage (V),⚡ Current (A),🌡️ Temp (°C),⚙️ Capacity (Wh)".
Proof.
  intros Hne. unfold CellMain.download_csv, to_csv_header.
  rewrite generated_columns, plain_columns by assumption. split; reflexivity.
Qed.

Lemma exported_header_witness :
  CellMain.download_csv (fst (CellMain.generate_cell_data ["lfp"; "nmc"] "Charging" quarters))
  = "Cell ID,Type,Mode,🔋 Voltage (V),⚡ Current (A),🌡️ Temp (°C),⚙️ Capacity (Wh)" /\
  to_csv_header (from_records (fst (Main.generate_rows ["lfp"; "nmc"] quarters)))
  = "Cell ID,Type,🔋 Voltage (V),⚡ Current (A),🌡️ Temp (°C),⚙️ Capacity (Wh)".
Proof.
  apply (exported_header ["lfp"; "nmc"] "Charging" quarters). discriminate.
Defined.

(** C5 as stated fails: the field names of the header are not the ones the
    specification lists, with or without the mode column. *)
Lemma header_names_differ :
  columns (fst (CellMain.generate_cell_data ["lfp"] "Idle" quarters))
    <> spec_header true /\
  columns (from_records (fst (Main.generate_rows ["lfp"] quarters)))
    <> spec_header false /\
  CellMain.download_csv (fst (CellMain.generate_cell_data ["lfp"] "Idle" quarters))
    <> String.concat "," (spec_header true).
Proof. repeat split; vm_compute; discriminate. Qed.

End Snapshots.

Section Guards.
Import Py Random Pandas Spec.

Lemma script_generates (selected : list string) (g : state) :
  Main.select_cells selected <> [] ->
  exists m h,
    fst (Main.script selected true g)
    = CellMain.Generated
        (from_records (fst (Main.generate_rows (Main.select_cells selected) g))) m h.
Proof.
  intros Hne. unfold Main.script.
  pose proof (plain_telemetry _ g Hne) as Ht.
  destruct (Main.select_cells selected) as [| c cs]; [congruence |].
  unfold bind, ret.
  destruct (Main.generate_rows (c :: cs) g) as [rows g']. cbn [fst] in *.
  change (Main.show_metrics (from_records rows))
    with (CellMain.show_metrics (from_records rows)).
  destruct (show_metrics_succeeds _ Ht) as (v & c' & t & w & ->).
  destruct (show_charts_succeeds _ Ht) as (series & ->). eauto.
Qed.

(** C6 (amended). The aggregation fails exactly on the empty snapshot, and
    the failure is the [KeyError] of the first column lookup (the empty
    frame has no columns), not a division error; on the snapshot of every
    non-empty selection it returns four numbers.  Both front ends guard it:
    on an empty selection they warn and draw nothing, and no run of either
    ends with an exception. *)
Theorem aggregation_fails_only_when_empty (cell_selection : list string)
  (mode : string) (g : state) :
  let df := fst (CellMain.generate_cell_data cell_selection mode g) in
  (cell_selection = [] -> CellMain.show_metrics df = inl (KeyError VOLTAGE)) /\
  (cell_selection <> [] ->
     exists v c t w,
       CellMain.show_metrics df
       = inr (CellMain.mkMetrics (VFloat v) (VFloat c) (VFloat t) (VFloat w))) /\
  CellMain.dashboard [] mode true g = (CellMain.Warning, g) /\
  Main.script [] true g = (CellMain.Warning, g) /\
  (forall submitted e,
     fst (CellMain.dashboard cell_selection mode submitted g) <> CellMain.Raised e) /\
  (forall pressed e,
     fst (Main.script cell_selection pressed g) <> CellMain.Raised e).
Proof.
  cbv zeta. split; [intros ->; reflexivity |].
  split; [intros Hne; apply show_metrics_succeeds, generated_telemetry, Hne |].
  split; [reflexivity |]. split; [reflexivity |]. split.
  - intros [|] e; [| discriminate].
    destruct cell_selection as [| c cs]; [discriminate |].
    destruct (dashboard_generates (c :: cs) mode g) as (m & ->); discriminate.
  - intros [|] e; [| discriminate].
    destruct (Main.select_cells cell_selection) as [| c cs] eqn:E.
    + unfold Main.script. rewrite E. discriminate.
    + destruct (script_generates cell_selection g) as (m & h & ->);
        [rewrite E |]; discriminate.
Qed.

Lemma aggregation_fails_only_when_empty_witness :
  exists v c t w,
    CellMain.show_metrics
      (fst (CellMain.generate_cell_data ["lfp"; "nmc"; "nca"] "Charging" quarters))
    = inr (CellMain.mkMetrics (VFloat v) (VFloat c) (VFloat t) (VFloat w)).
Proof.
  apply (proj1 (proj2 (aggregation_fails_only_when_empty
                         ["lfp"; "nmc"; "nca"] "Charging" quarters))).
  discriminate.
Defined.

(** C6 as stated fails: on the empty snapshot the aggregation raises a
    [KeyError], which is not a division error. *)
Lemma empty_snapshot_raises_key_error :
  fst (CellMain.generate_cell_data [] "Idle" quarters) = from_records [] /\
  CellMain.show_metrics (from_records []) = inl (KeyError VOLTAGE) /\
  CellMain.show_metrics (from_records []) <> inl ZeroDivisionError.
Proof. repeat split. discriminate. Qed.

(** Two loops whose bodies agree on the state they leave and produce
    related results. *)
Lemma for_each_related {A B : Type} (R : B -> B -> Prop) (b1 b2 : A -> Rand B) :
  (forall x g, R (fst (b1 x g)) (fst (b2 x g)) /\ snd (b1 x g) = snd (b2 x g)) ->
  forall l g,
    Forall2 R (fst (for_each l b1 g)) (fst (for_each l b2 g)) /\
    snd (for_each l b1 g) = snd (for_each l b2 g).
Proof.
  intros Hb l. induction l as [| x l IH]; intros g; cbn.
  - split; [constructor | reflexivity].
  - unfold bind. destruct (Hb x g) as [Hx Hs].
    destruct (b1 x g) as [y1 g1], (b2 x g) as [y2 g2]. cbn in Hx, Hs. subst g2.
    destruct (IH g1) as [Hl Hs'].
    destruct (for_each l b1 g1) as [ys1 g1'], (for_each l b2 g1) as [ys2 g2'].
    cbn in *. split; [constructor |]; assumption.
Qed.

Lemma generate_row_unknown_mode (idx : nat) (cell_type mode : string) (g : state) :
  mode <> "Charging" -> mode <> "Discharging" ->
  same_but_mode (fst (CellMain.generate_row idx cell_type mode g))
                (fst (CellMain.generate_row idx cell_type "Idle" g)) /\
  snd (CellMain.generate_row idx cell_type mode g)
  = snd (CellMain.generate_row idx cell_type "Idle" g).
Proof.
  intros H1 H2. unfold CellMain.generate_row.
  apply String.eqb_neq in H1, H2. rewrite H1, H2.
  change (String.eqb "Idle" "Charging") with false.
  change (String.eqb "Idle" "Discharging") with false.
  unfold uniform. unfold bind, random, ret. cbv beta iota. cbn [fst snd].
  split; [| reflexivity].
  intros k Hk. cbn [get].
  destruct (String.eqb "Cell ID" k); trivial.
  destruct (String.eqb "Type" k); trivial.
  destruct (String.eqb_spec "Mode" k); [congruence | reflexivity].
Qed.

(** C10. For a mode other than ["Charging"] and ["Discharging"], whatever
    the string, [generate_cell_data] returns its frame, one reading per
    cell, as in Idle mode: every field but the recorded mode is the one the
    mode ["Idle"] gives on the same draws; with draws in [0, 1), the
    current is exactly 0.0 and the voltage lies within 0.05 of the base
    voltage. *)
Theorem unknown_mode_is_idle (cell_selection : list string) (mode : string)
  (g : state) :
  unit_draws g -> mode <> "Charging" -> mode <> "Discharging" ->
  let rows := records (fst (CellMain.generate_cell_data cell_selection mode g)) in
  List.length rows = List.length cell_selection /\
  Forall2 (fun cell_type row =>
             idle_bounds (CellMain.voltage_base cell_type) row)
          cell_selection rows /\
  Forall2 same_but_mode rows
    (records (fst (CellMain.generate_cell_data cell_selection "Idle" g))).
Proof.
  intros Hg H1 H2. cbv zeta. rewrite !records_generate_cell_data.
  split; [apply generate_rows_length |]. split.
  - apply Forall2_selection with (start := 1%nat).
    eapply Forall2_weaken; [| apply generate_rows_bounded, Hg].
    intros ix row (v & c & t & -> & _ & _ & H).
    destruct (H eq_refl) as [Hb _]. unfold branch_bounds in Hb.
    apply String.eqb_neq in H1, H2. rewrite H1, H2 in Hb.
    destruct Hb as [Hv ->]. split; [exists v; now split | reflexivity].
  - unfold CellMain.generate_rows. apply for_each_related.
    intros [idx cell_type] g'. now apply generate_row_unknown_mode.
Qed.

Lemma unknown_mode_is_idle_witness :
  let rows := records (fst (CellMain.generate_cell_data ["lfp"; "nmc"]
                              "Maintenance" quarters)) in
  List.length rows = 2%nat /\
  Forall2 (fun cell_type row =>
             idle_bounds (CellMain.voltage_base cell_type) row)
          ["lfp"; "nmc"] rows /\
  Forall2 same_but_mode rows
    (records (fst (CellMain.generate_cell_data ["lfp"; "nmc"] "Idle" quarters))).
Proof.
  apply (unknown_mode_is_idle ["lfp"; "nmc"] "Maintenance" quarters quarters_unit);
    discriminate.
Defined.

End Guards.

(* ================================================================= *)
(** ** The time series *)

Section Series.
Import Py Random Pandas Spec.

(** A loop whose body never raises runs to its end. *)
Lemma for_each_exn_succeeds {E A B : Type} (P : A -> B -> Prop)
  (body : A -> Rand (E + B)) :
  (forall x g, exists y, fst (body x g) = inr y /\ P x y) ->
  forall l g, exists ys, fst (for_each_exn l body g) = inr ys /\ Forall2 P l ys.
Proof.
  intros Hb l. induction l as [| x l IH]; intros g; cbn.
  - exists []. split; [reflexivity | constructor].
  - unfold bind_exn. destruct (Hb x g) as (y & Ey & Hy).
    destruct (body x g) as [r g']. cbn in Ey. subst r.
    destruct (IH g') as (ys & Eys & Hys).
    destruct (for_each_exn l body g') as [r g'']. cbn in Eys. subst r.
    exists (y :: ys). split; [reflexivity | now constructor].
Qed.

Lemma Forall2_map_eq {A B C : Type} (f : B -> C) (h : A -> C)
  (l : list A) (ys : list B) :
  Forall2 (fun x y => f y = h x) l ys -> map f ys = map h l.
Proof. induction 1; cbn; congruence. Qed.

Lemma expected_tags_length (modes : list string) (steps : nat) :
  List.length (expected_tags modes steps) = (List.length modes * steps)%nat.
Proof.
  unfold expected_tags. induction modes as [| m modes IH]; cbn; trivial.
  now rewrite length_app, length_map, length_seq, IH.
Qed.

Lemma step_record (cell_selection : list string) (mode : string) (t : nat) (g : state) :
  cell_selection <> [] ->
  exists record,
    fst ((df <- CellMain.generate_cell_data cell_selection mode ;;
          ret (CellMain.performance_record t mode df))%rand g) = inr record /\
    tag record = (Some (VInt (Z.of_nat t)), Some (VStr mode)).
Proof.
  intros Hne. unfold bind, ret.
  pose proof (generated_telemetry cell_selection mode g Hne) as Ht.
  destruct (CellMain.generate_cell_data cell_selection mode g) as [df g'].
  cbn [fst] in *.
  destruct (performance_record_succeeds t mode df Ht) as (v & c & tm & w & ->).
  eexists. split; reflexivity.
Qed.

(** C7. For every list of modes and every number of steps, on a non-empty
    cell selection, the sampler returns [length modes * steps] records; read
    in order, their (time, mode) tags are those of the first mode with times
    0 .. steps-1, then those of the second mode, and so on. *)
Theorem sampler_order (modes : list string) (steps : nat)
  (cell_selection : list string) (g : state) :
  cell_selection <> [] ->
  exists records,
    fst (CellMain.sample_series modes steps cell_selection g) = inr records /\
    List.length records = (List.length modes * steps)%nat /\
    map tag records = expected_tags modes steps.
Proof.
  intros Hne. unfold CellMain.sample_series, bind_exn.
  destruct (for_each_exn_succeeds
              (fun mode recs =>
                 map tag recs
                 = map (fun t => (Some (VInt (Z.of_nat t)), Some (VStr mode)))
                       (seq 0 steps))
              (fun mode =>
                 for_each_exn (seq 0 steps) (fun t =>
                   (df <- CellMain.generate_cell_data cell_selection mode ;;
                    ret (CellMain.performance_record t mode df))%rand))
              (E := exn)) with (l := modes) (g := g) as (per_mode & E & H).
  { intros mode g'.
    destruct (for_each_exn_succeeds
                (fun t record => tag record = (Some (VInt (Z.of_nat t)), Some (VStr mode)))
                (fun t =>
                   (df <- CellMain.generate_cell_data cell_selection mode ;;
                    ret (CellMain.performance_record t mode df))%rand)
                (E := exn)) with (l := seq 0 steps) (g := g') as (recs & Er & Hr).
    - intros t g''. now apply step_record.
    - exists recs. split; [exact Er |]. now apply Forall2_map_eq. }
  destruct (for_each_exn modes _ g) as [r g']. cbn in E. subst r.
  exists (List.concat per_mode). split; [reflexivity |].
  assert (T : map tag (List.concat per_mode) = expected_tags modes steps).
  { unfold expected_tags. rewrite concat_map, flat_map_concat_map. f_equal.
    now apply Forall2_map_eq. }
  split; [| exact T].
  rewrite <- (length_map tag), T. apply expected_tags_length.
Qed.

Lemma sampler_order_witness :
  exists records,
    fst (CellMain.sample_series CellMain.OPERATING_MODES 10
           ["lfp"; "nmc"; "nca"] quarters) = inr records /\
    List.length records = 30%nat /\
    map tag records = expected_tags CellMain.OPERATING_MODES 10.
Proof.
  apply (sampler_order CellMain.OPERATING_MODES 10 ["lfp"; "nmc"; "nca"] quarters).
  discriminate.
Defined.

End Series.

(* ================================================================= *)
(** ** Aggregation and the order of the rows *)

Section Order.
Import Py Random Pandas Spec.

Lemma numbers_cons (v : value) (s : list value) :
  numbers (v :: s)
  = match numbers s with
    | inl e => inl e
    | inr qs =>
        match v with
        | VFloat q => inr (q :: qs)
        | VInt z => inr (inject_Z z :: qs)
        | VNaN => inr qs
        | VStr _ => inl TypeError
        end
    end.
Proof. reflexivity. Qed.

Lemma numbers_error (s : list value) (e : exn) :
  numbers s = inl e -> e = TypeError.
Proof.
  revert e. induction s as [| v s IH]; intros e; [discriminate |].
  rewrite numbers_cons. destruct (numbers s) as [e' | qs].
  - intros [= <-]. now apply IH.
  - destruct v; congruence.
Qed.











Lemma value_equiv_refl (v : value) : value_equiv v v.
Proof. destruct v; cbn; trivial. reflexivity. Qed.







End Order.

(* ================================================================= *)
(** ** The two generators side by side *)

Section Compare.
Import Py Random Pandas Spec.

Lemma Forall2_join {A B C : Type} (P : A -> B -> Prop) (Q : A -> C -> Prop)
  (l : list A) (ys : list B) (zs : list C) :
  Forall2 P l ys -> Forall2 Q l zs ->
  Forall2 (fun y z => exists x, P x y /\ Q x z) ys zs.
Proof.
  intros H. revert zs. induction H as [| x y l ys Hx _ IH]; intros zs HQ.
  - inversion HQ. constructor.
  - inversion HQ as [| ? z ? zs' Hz Hl]; subst. constructor; eauto.
Qed.

Lemma branch_differs (base : Q) (mode : string) (v' c' c : Q) :
  branch_bounds base mode v' c' -> 0.5 <= c -> ~ (base == v' /\ c == c').
Proof.
  unfold branch_bounds. intros Hb Hc [Ev Ec].
  destruct (String.eqb mode "Charging");
    [| destruct (String.eqb mode "Discharging")].
  - destruct Hb as [[H _] _]. lra.
  - destruct Hb as [[_ H] _]. lra.
  - destruct Hb as [_ ->]. lra.
Qed.

(** C9 (amended). The two generators are not equivalent.  On a common
    selection they give the same number of readings with the same cell ids
    and types, but a reading of [main.py] has no mode, has exactly the base
    voltage of its cell type, and a current between 0.5 and 5.0; whatever
    the mode and the draws (in [0, 1)), its voltage and current are never
    both those of the reading [generate_cell_data] gives the same cell. *)
Theorem generators_compared (cell_selection : list string) (mode : string)
  (g g' : state) :
  unit_draws g -> unit_draws g' ->
  let rows := fst (Main.generate_rows cell_selection g) in
  let rows' := records (fst (CellMain.generate_cell_data cell_selection mode g')) in
  Forall2 plain_reading cell_selection rows /\
  Forall2 (fun row row' =>
             get row "Cell ID" = get row' "Cell ID" /\
             get row "Type" = get row' "Type" /\
             get row' "Mode" = Some (VStr mode) /\
             ~ same_voltage_current row row')
          rows rows'.
Proof.
  intros Hg Hg'. cbv zeta. rewrite records_generate_cell_data. split.
  - apply Forall2_selection with (start := 1%nat).
    eapply Forall2_weaken; [| apply plain_rows_bounded, Hg].
    intros ix row (c & t & -> & Hv & Hc & H).
    destruct (H eq_refl) as [Hcb Htb].
    split; [reflexivity |]. split; [reflexivity |].
    split; [exists c; now split |]. split; [exists t; now split |].
    exists (CellMain.voltage_base (snd ix)), c. now repeat split.
  - eapply Forall2_weaken;
      [| exact (Forall2_join _ _ _ _ _ (plain_rows_bounded cell_selection g Hg)
                  (generate_rows_bounded cell_selection mode g' Hg'))].
    intros row row' (ix & (c & t & -> & _ & _ & H) & (v' & c' & t' & -> & _ & _ & H')).
    destruct (H eq_refl) as [[Hc _] _]. destruct (H' eq_refl) as [Hb _].
    split; [reflexivity |]. split; [reflexivity |]. split; [reflexivity |].
    intros (v1 & c1 & v2 & c2 & E1 & E2 & E3 & E4 & Ev & Ec).
    cbn in E1, E2, E3, E4.
    injection E1 as <-. injection E2 as <-. injection E3 as <-. injection E4 as <-.
    exact (branch_differs _ _ _ _ _ Hb Hc (conj Ev Ec)).
Qed.

Lemma generators_compared_witness :
  Forall2 plain_reading ["lfp"; "nmc"]
    (fst (Main.generate_rows ["lfp"; "nmc"] quarters)).
Proof.
  exact (proj1 (generators_compared ["lfp"; "nmc"] "Charging" quarters quarters
                  quarters_unit quarters_unit)).
Defined.

(** C9 as stated fails: on the selection [lfp] and the same draws, the
    reading of [main.py] differs in voltage or current from the reading of
    [generate_cell_data] in each of the three modes. *)
Lemma generators_not_equivalent :
  ~ same_telemetry (fst (Main.generate_rows ["lfp"] quarters))
      (records (fst (CellMain.generate_cell_data ["lfp"] "Idle" quarters))) /\
  ~ same_telemetry (fst (Main.generate_rows ["lfp"] quarters))
      (records (fst (CellMain.generate_cell_data ["lfp"] "Charging" quarters))) /\
  ~ same_telemetry (fst (Main.generate_rows ["lfp"] quarters))
      (records (fst (CellMain.generate_cell_data ["lfp"] "Discharging" quarters))).
Proof.
  repeat split; intros H; inversion H as [| r r' rs rs' Hr _ E1 E2]; subst;
    destruct Hr as (v & c & v' & c' & Ev & Ec & Ev' & Ec' & Hv & Hc);
    vm_compute in Ev, Ec, Ev', Ec';
    injection Ev as <-; injection Ec as <-; injection Ev' as <-; injection Ec' as <-;
    vm_compute in Hv, Hc; discriminate.
Qed.

End Compare.

(* ================================================================= *)
(** * Further properties of the scripts *)

Section Ranges.
Import Py Random Pandas Spec.

Lemma round_zero (n : nat) (x : Q) : x == 0 -> round x n == 0.
Proof.
  intros ->. unfold round. rewrite (round_half_even_comp _ (inject_Z 0)).
  - rewrite round_half_even_inject. unfold Qdiv. now rewrite Qmult_0_l.
  - now rewrite Qmult_0_l.
Qed.

Ltac capacity_bounds V C :=
  (split; [refine (rounded_product_between _ _ _ _ _ _ _ _ _ _ _ V C _ _);
           vm_compute; discriminate |]);
  (split; [refine (rounded_product_between _ _ _ _ _ _ _ _ _ _ _ V C _ _);
           vm_compute; discriminate |]);
  destruct V, C; split; split; lra.

(** The capacity of a reading lies between the products of the bounds of
    its branch. *)
Lemma capacity_between (cell_type mode : string) (v c : Q) :
  branch_bounds (CellMain.voltage_base cell_type) mode v c ->
  between (capacity_range (CellMain.voltage_base cell_type) mode)
          (round (fmul v c) 2) /\
  between (fleet_capacity_range mode) (round (fmul v c) 2) /\
  between (voltage_range mode) v /\ between (current_range mode) c.
Proof.
  unfold branch_bounds, capacity_range, fleet_capacity_range, voltage_range,
    current_range, between.
  destruct (String.eqb mode "Charging");
    [| destruct (String.eqb mode "Discharging")]; cbn [fst snd].
  - intros [V C].
    destruct (voltage_base_cases cell_type) as [E | E]; rewrite E in *;
      capacity_bounds V C.
  - intros [V C].
    destruct (voltage_base_cases cell_type) as [E | E]; rewrite E in *;
      capacity_bounds V C.
  - intros [[V1 V2] ->].
    assert (Z0 : round (fmul v 0.0) 2 == 0) by apply round_zero, fmul_zero_r.
    rewrite Z0.
    destruct (voltage_base_cases cell_type) as [E | E]; rewrite E in V1, V2;
      repeat split; lra.
Qed.

End Ranges.

Section Statistics.
Import Py Random Pandas Spec.

Lemma count_cons {A : Type} (x : A) (l : list A) : count (x :: l) == 1 + count l.
Proof.
  unfold count. cbn [List.length]. rewrite Nat2Z.inj_succ, <- Z.add_1_l.
  rewrite inject_Z_plus. reflexivity.
Qed.

Lemma count_nonneg {A : Type} (l : list A) : 0 <= count l.
Proof.
  unfold count. replace 0 with (inject_Z 0) by reflexivity.
  rewrite <- Zle_Qle. lia.
Qed.

Lemma total_between (r : Q * Q) (qs : list Q) :
  Forall (between r) qs ->
  count qs * fst r <= total qs /\ total qs <= count qs * snd r.
Proof.
  induction 1 as [| q qs [H1 H2] _ [IH1 IH2]].
  - change (total []) with 0. change (count (@nil Q)) with 0. split; lra.
  - rewrite count_cons. cbn [total fold_right]. fold (total qs). split; lra.
Qed.

Lemma mean_between (r : Q * Q) (qs : list Q) :
  qs <> [] -> Forall (between r) qs -> between r (total qs / count qs).
Proof.
  intros Hne H. destruct (total_between r qs H) as [H1 H2].
  assert (Hpos : 0 < count qs).
  { destruct qs as [| q qs]; [congruence |]. rewrite count_cons.
    pose proof (count_nonneg qs). lra. }
  unfold between. split.
  - apply Qle_shift_div_l; [exact Hpos | lra].
  - apply Qle_shift_div_r; [exact Hpos | lra].
Qed.

Lemma numbers_between (k : string) (r : Q * Q) (rows : list dict) :
  Forall (field_between k r) rows ->
  exists qs, numbers (map (cell k) rows) = inr qs /\
             List.length qs = List.length rows /\ Forall (between r) qs.
Proof.
  induction 1 as [| row rows (q & Hq & Hb) _ (qs & E & L & F)]; cbn.
  - exists []. repeat split. constructor.
  - rewrite E. unfold cell. rewrite Hq. exists (q :: qs).
    cbn. rewrite L. repeat split. now constructor.
Qed.

Lemma column_mean_between (df : DataFrame) (k : string) (r : Q * Q) :
  records df <> [] -> In k (columns df) ->
  Forall (field_between k r) (records df) ->
  exists q, (s <-? getitem df k ;; mean s) = inr (VFloat q) /\ between r q.
Proof.
  intros Hne Hk H. rewrite (getitem_column df k Hk). cbn.
  destruct (numbers_between k r _ H) as (qs & E & L & F).
  unfold mean. rewrite E.
  assert (Hq : qs <> []) by (eapply nonempty_length; eauto).
  destruct qs as [| q qs]; [congruence |].
  eexists. split; [reflexivity |]. now apply mean_between.
Qed.

Lemma column_sum_between (df : DataFrame) (k : string) (r : Q * Q) :
  In k (columns df) ->
  Forall (field_between k r) (records df) ->
  exists q, (s <-? getitem df k ;; sum s) = inr (VFloat q) /\
            count (records df) * fst r <= q /\ q <= count (records df) * snd r.
Proof.
  intros Hk H. rewrite (getitem_column df k Hk). cbn.
  destruct (numbers_between k r _ H) as (qs & E & L & F).
  unfold sum. rewrite E. eexists. split; [reflexivity |].
  unfold count. rewrite <- L. now apply total_between.
Qed.

(** The fields of the readings of a fleet, in the ranges of the mode. *)
Lemma generated_fields_between (cell_selection : list string) (mode : string)
  (g : state) :
  unit_draws g ->
  Forall (fun row =>
            field_between VOLTAGE (voltage_range mode) row /\
            field_between CURRENT (current_range mode) row /\
            field_between TEMP (25, 40) row /\
            field_between CAPACITY (fleet_capacity_range mode) row)
         (fst (CellMain.generate_rows cell_selection mode g)).
Proof.
  intros Hg. apply Forall2_right with (l := enumerate cell_selection 1).
  eapply Forall2_weaken; [| apply generate_rows_bounded, Hg].
  intros ix row (v & c & t & -> & _ & _ & H).
  destruct (H eq_refl) as [Hb Ht].
  destruct (capacity_between _ _ _ _ Hb) as (_ & Hw & Hv & Hc).
  repeat split; eexists; (split; [reflexivity | assumption]).
Qed.

Lemma Forall_and_inv {A : Type} (P Q : A -> Prop) (l : list A) :
  Forall (fun x => P x /\ Q x) l -> Forall P l /\ Forall Q l.
Proof. induction 1 as [| x l [HP HQ] _ [IP IQ]]; split; constructor; auto. Qed.

Lemma show_metrics_ranges (cell_selection : list string) (mode : string)
  (g : state) :
  unit_draws g -> cell_selection <> [] ->
  exists v c t w,
    CellMain.show_metrics (fst (CellMain.generate_cell_data cell_selection mode g))
    = inr (CellMain.mkMetrics (VFloat v) (VFloat c) (VFloat t) (VFloat w)) /\
    between (voltage_range mode) v /\
    between (current_range mode) c /\
    between (25, 40) t /\
    count cell_selection * fst (fleet_capacity_range mode) <= w /\
    w <= count cell_selection * snd (fleet_capacity_range mode).
Proof.
  intros Hg Hne.
  pose proof (generated_telemetry cell_selection mode g Hne)
    as (Hr & _ & [Kv _] & [Kc _] & [Kt _] & [Kw _]).
  pose proof (generated_fields_between cell_selection mode g Hg) as F.
  rewrite <- records_generate_cell_data in F.
  assert (L : count (records (fst (CellMain.generate_cell_data cell_selection mode g)))
              = count cell_selection).
  { unfold count. now rewrite records_generate_cell_data, generate_rows_length. }
  set (df := fst (CellMain.generate_cell_data cell_selection mode g)) in *.
  apply Forall_and_inv in F as [Fv F]. apply Forall_and_inv in F as [Fc F].
  apply Forall_and_inv in F as [Ft Fw].
  unfold CellMain.show_metrics.
  destruct (column_mean_between df _ _ Hr Kv Fv) as (v & -> & Hv).
  destruct (column_mean_between df _ _ Hr Kc Fc) as (c & -> & Hc).
  destruct (column_mean_between df _ _ Hr Kt Ft) as (t & -> & Ht).
  destruct (column_sum_between df _ _ Kw Fw) as (w & -> & Hw).
  rewrite L in Hw. exists v, c, t, w. cbn [bind_sum].
  split; [reflexivity |]. split; [exact Hv |]. split; [exact Hc |].
  split; [exact Ht | exact Hw].
Qed.

(** In a mode other than Charging and Discharging the snapshot of a
    non-empty selection has mean current 0 and total capacity 0. *)
Theorem idle_metrics_are_zero (cell_selection : list string) (mode : string)
  (g : state) :
  unit_draws g -> cell_selection <> [] ->
  mode <> "Charging" -> mode <> "Discharging" ->
  exists v c t w,
    CellMain.show_metrics (fst (CellMain.generate_cell_data cell_selection mode g))
    = inr (CellMain.mkMetrics (VFloat v) (VFloat c) (VFloat t) (VFloat w)) /\
    c == 0 /\ w == 0.
Proof.
  intros Hg Hne H1 H2.
  destruct (show_metrics_ranges cell_selection mode g Hg Hne)
    as (v & c & t & w & E & _ & Hc & _ & Hw1 & Hw2).
  exists v, c, t, w. split; [exact E |].
  unfold between, current_range, fleet_capacity_range in *.
  apply String.eqb_neq in H1, H2. rewrite H1, H2 in *. cbn [fst snd] in *.
  split; lra.
Qed.

Lemma idle_metrics_are_zero_witness :
  exists v c t w,
    CellMain.show_metrics
      (fst (CellMain.generate_cell_data ["lfp"; "nmc"] "Idle" quarters))
    = inr (CellMain.mkMetrics (VFloat v) (VFloat c) (VFloat t) (VFloat w)) /\
    c == 0 /\ w == 0.
Proof.
  apply (idle_metrics_are_zero ["lfp"; "nmc"] "Idle" quarters quarters_unit);
    discriminate.
Defined.

End Statistics.

Section Fields.
Import Py Random Pandas Spec.

(** With draws in [0, 1), the capacity of every reading lies between the
    product of the least voltage and current of its branch and the product
    of the greatest: for Charging [(base+0.1)*1.0] and [(base+0.5)*5.0], for
    Discharging [(base-0.5)*0.5] and [(base-0.1)*3.0], and it is 0 in any
    other mode. *)
Theorem capacity_within_range (cell_selection : list string) (mode : string)
  (g : state) :
  unit_draws g ->
  Forall2 (fun cell_type row =>
             field_between CAPACITY
               (capacity_range (CellMain.voltage_base cell_type) mode) row)
          cell_selection
          (records (fst (CellMain.generate_cell_data cell_selection mode g))).
Proof.
  intros Hg. rewrite records_generate_cell_data.
  apply Forall2_selection with (start := 1%nat).
  eapply Forall2_weaken; [| apply generate_rows_bounded, Hg].
  intros ix row (v & c & t & -> & _ & _ & H).
  destruct (H eq_refl) as [Hb _].
  destruct (capacity_between _ _ _ _ Hb) as (Hw & _).
  eexists. split; [reflexivity | exact Hw].
Qed.

Lemma capacity_within_range_witness :
  Forall2 (fun cell_type row =>
             field_between CAPACITY
               (capacity_range (CellMain.voltage_base cell_type) "Charging") row)
          ["lfp"; "nmc"]
          (records (fst (CellMain.generate_cell_data ["lfp"; "nmc"] "Charging" quarters))).
Proof.
  exact (capacity_within_range ["lfp"; "nmc"] "Charging" quarters quarters_unit).
Defined.

(** In every reading of either script the temperature has one decimal and
    the capacity two. *)
Theorem fields_have_their_precision (cell_selection : list string)
  (mode : string) (g : state) :
  Forall precise
    (records (fst (CellMain.generate_cell_data cell_selection mode g))) /\
  Forall precise (fst (Main.generate_rows cell_selection g)).
Proof.
  split.
  - rewrite records_generate_cell_data. unfold CellMain.generate_rows.
    apply Forall2_right with (l := enumerate cell_selection 1).
    apply (for_each_Forall2 (fun _ => True)); [| exact I].
    intros [idx cell_type] g' _. split; [| exact I].
    unfold CellMain.generate_row.
    destruct (String.eqb mode "Charging");
      [| destruct (String.eqb mode "Discharging")];
      unfold uniform; unfold bind, random, ret; cbv beta iota; cbn [fst snd];
      eexists _, _; (split; [reflexivity |]);
      (split; [apply round_idempotent |]);
      (split; [reflexivity | apply round_idempotent]).
  - unfold Main.generate_rows.
    apply Forall2_right with (l := enumerate cell_selection 1).
    apply (for_each_Forall2 (fun _ => True)); [| exact I].
    intros [idx cell_type] g' _. split; [| exact I].
    unfold Main.generate_row, uniform. unfold bind, random, ret.
    cbv beta iota; cbn [fst snd].
    eexists _, _. split; [reflexivity |]. split; [apply round_idempotent |].
    split; [reflexivity | apply round_idempotent].
Qed.

Lemma get_In_keys (row : dict) (k : string) (v : value) :
  get row k = Some v -> In k (keys row).
Proof.
  induction row as [| [k' v'] row IH]; cbn; [discriminate |].
  destruct (String.eqb_spec k' k); auto.
Qed.

Lemma single_column (row : dict) (k : string) (q : Q) :
  get row k = Some (VFloat q) ->
  getitem (from_records [row]) k = inr [VFloat q].
Proof.
  intros H. rewrite getitem_column.
  - cbn. unfold cell. now rewrite H.
  - cbn [columns from_records flat_map]. rewrite dict_fromkeys_In, app_nil_r.
    eapply get_In_keys, H.
Qed.

(** The aggregate of a snapshot of one reading is that reading: its
    voltage, current and temperature are the means, its capacity is the
    sum. *)
Theorem aggregate_of_one_reading (row : dict) (v c t w : Q) :
  get row VOLTAGE = Some (VFloat v) ->
  get row CURRENT = Some (VFloat c) ->
  get row TEMP = Some (VFloat t) ->
  get row CAPACITY = Some (VFloat w) ->
  same_result metrics_equiv
    (CellMain.show_metrics (from_records [row]))
    (inr (CellMain.mkMetrics (VFloat v) (VFloat c) (VFloat t) (VFloat w))).
Proof.
  intros Hv Hc Ht Hw. unfold CellMain.show_metrics.
  rewrite (single_column _ _ _ Hv), (single_column _ _ _ Hc),
    (single_column _ _ _ Ht), (single_column _ _ _ Hw).
  cbn. repeat split; cbn; field.
Qed.

Lemma aggregate_of_one_reading_witness :
  same_result metrics_equiv
    (CellMain.show_metrics
       (from_records [reading_dict "Cell_1" "LFP" "Charging" 3.45 2.5 30.1]))
    (inr (CellMain.mkMetrics (VFloat 3.45) (VFloat 2.5) (VFloat 30.1)
            (VFloat (round (fmul 3.45 2.5) 2)))).
Proof.
  apply (aggregate_of_one_reading
           (reading_dict "Cell_1" "LFP" "Charging" 3.45 2.5 30.1)
           3.45 2.5 30.1 (round (fmul 3.45 2.5) 2)); reflexivity.
Defined.

End Fields.

Section Effects.
Import Py Random Pandas Spec.

(** A loop whose body always takes [d] draws takes [d] draws per element. *)
Lemma for_each_shift {A B : Type} (d : nat) (body : A -> Rand B) :
  (forall x g k, snd (body x g) k = g (d + k)%nat) ->
  forall l g k, snd (for_each l body g) k = g (d * List.length l + k)%nat.
Proof.
  intros Hb l. induction l as [| x l IH]; intros g k; cbn [for_each List.length].
  - unfold ret. cbn. f_equal. lia.
  - unfold bind. pose proof (Hb x g) as Hx.
    destruct (body x g) as [y g']. cbn [snd] in Hx.
    pose proof (IH g' k) as Hl.
    destruct (for_each l body g') as [ys g'']. cbn [snd] in *.
    unfold ret. cbn [snd]. rewrite Hl, Hx. f_equal. lia.
Qed.

Lemma draws_consumed_at (cell_selection : list string) (mode : string)
  (g : state) (k : nat) :
  snd (CellMain.generate_cell_data cell_selection mode g) k
  = g (draws_per_cell mode * List.length cell_selection + k)%nat /\
  snd (Main.generate_rows cell_selection g) k
  = g (2 * List.length cell_selection + k)%nat.
Proof.
  split.
  - rewrite generate_cell_data_state. unfold CellMain.generate_rows.
    rewrite (for_each_shift (draws_per_cell mode)), enumerate_length; trivial.
    intros [idx cell_type] g' k'. unfold CellMain.generate_row, draws_per_cell.
    destruct (String.eqb mode "Charging");
      [| destruct (String.eqb mode "Discharging")]; reflexivity.
  - unfold Main.generate_rows.
    rewrite (for_each_shift 2), enumerate_length; trivial.
    intros [idx cell_type] g' k'. reflexivity.
Qed.

(** [generate_cell_data] takes three draws per cell in the modes Charging
    and Discharging (voltage, current, temperature) and two in any other
    mode (voltage, temperature); [main.py] takes two per cell (current,
    temperature).  The source is left at the draw that follows. *)
Theorem draws_consumed (cell_selection : list string) (mode : string)
  (g : state) (k : nat) :
  snd (CellMain.generate_cell_data cell_selection mode g) k
  = g (draws_per_cell mode * List.length cell_selection + k)%nat /\
  snd (Main.generate_rows cell_selection g) k
  = g (2 * List.length cell_selection + k)%nat.
Proof. exact (draws_consumed_at cell_selection mode g k). Qed.

Lemma str_of_nat_injective (n m : nat) : str_of_nat n = str_of_nat m -> n = m.
Proof.
  unfold str_of_nat. intros H.
  apply (f_equal NilEmpty.uint_of_string) in H. rewrite !NilEmpty.usu in H.
  injection H as H. apply (f_equal Nat.of_uint) in H.
  now rewrite !DecimalNat.Unsigned.of_to in H.
Qed.

Lemma cell_ids_of_rows (cell_selection : list string) (mode : string) (g : state) :
  map (fun row => get row "Cell ID")
      (fst (CellMain.generate_rows cell_selection mode g))
  = map (fun i => Some (VStr ("Cell_" ++ str_of_nat i)))
        (seq 1 (List.length cell_selection)).
Proof.
  rewrite <- map_fst_enumerate, map_map. apply Forall2_map_eq.
  eapply Forall2_weaken; [| apply generate_rows_shape].
  now intros ix row (v & c & t & -> & _).
Qed.

Lemma cell_ids_of_plain_rows (cell_selection : list string) (g : state) :
  map (fun row => get row "Cell ID") (fst (Main.generate_rows cell_selection g))
  = map (fun i => Some (VStr ("Cell_" ++ str_of_nat i)))
        (seq 1 (List.length cell_selection)).
Proof.
  rewrite <- map_fst_enumerate, map_map. apply Forall2_map_eq.
  eapply Forall2_weaken; [| apply plain_rows_shape].
  now intros ix row (c & t & -> & _).
Qed.

Lemma cell_labels_NoDup (start len : nat) :
  NoDup (map (fun i => Some (VStr ("Cell_" ++ str_of_nat i))) (seq start len)).
Proof.
  apply NoDup_map_NoDup_ForallPairs; [| apply seq_NoDup].
  intros i j _ _ E. injection E as E. now apply str_of_nat_injective.
Qed.

(** The cell ids of a snapshot are [Cell_1], ..., [Cell_n] in this order,
    and no two readings have the same id, in either script. *)
Theorem cell_ids_are_distinct (cell_selection : list string) (mode : string)
  (g : state) :
  let ids := map (fun row => get row "Cell ID")
                 (records (fst (CellMain.generate_cell_data cell_selection mode g))) in
  let ids' := map (fun row => get row "Cell ID")
                  (fst (Main.generate_rows cell_selection g)) in
  ids = map (fun i => Some (VStr ("Cell_" ++ str_of_nat i)))
            (seq 1 (List.length cell_selection)) /\
  ids' = ids /\ NoDup ids.
Proof.
  cbv zeta. rewrite records_generate_cell_data, cell_ids_of_rows,
    cell_ids_of_plain_rows.
  split; [reflexivity |]. split; [reflexivity | apply cell_labels_NoDup].
Qed.

Lemma upper_lower_ascii (c : ascii) : upper_ascii (lower_ascii c) = upper_ascii c.
Proof. destruct c as [[] [] [] [] [] [] [] []]; reflexivity. Qed.

Lemma upper_lower (s : string) : upper (lower s) = upper s.
Proof.
  unfold upper, lower. induction s as [| c s IH]; cbn; [reflexivity |].
  now rewrite IH, upper_lower_ascii.
Qed.

Lemma types_of_rows (cell_selection : list string) (mode : string) (g : state) :
  map (fun row => get row "Type") (fst (CellMain.generate_rows cell_selection mode g))
  = map (fun s => Some (VStr (upper s))) cell_selection.
Proof.
  apply Forall2_map_eq, Forall2_selection with (start := 1%nat).
  eapply Forall2_weaken; [| apply generate_rows_shape].
  now intros ix row (v & c & t & -> & _).
Qed.

Lemma modes_of_rows (cell_selection : list string) (mode : string) (g : state) :
  map (fun row => get row "Mode") (fst (CellMain.generate_rows cell_selection mode g))
  = map (fun _ => Some (VStr mode)) cell_selection.
Proof.
  apply Forall2_map_eq, Forall2_selection with (start := 1%nat).
  eapply Forall2_weaken; [| apply generate_rows_shape].
  now intros ix row (v & c & t & -> & _).
Qed.

(** A submitted dashboard with at least one cell shows one reading per
    select box, in order; the type of each reading is the selected tag in
    upper case (the lower-casing done before the generation is undone), and
    the mode of each is the selected mode. *)
Theorem dashboard_rows (selected : list string) (mode : string) (g : state) :
  selected <> [] ->
  exists df m header,
    fst (CellMain.dashboard selected mode true g) = CellMain.Generated df m header /\
    map (fun row => get row "Type") (records df)
    = map (fun s => Some (VStr (upper s))) selected /\
    map (fun row => get row "Mode") (records df)
    = map (fun _ => Some (VStr mode)) selected /\
    map (fun row => get row "Cell ID") (records df)
    = map (fun i => Some (VStr ("Cell_" ++ str_of_nat i)))
          (seq 1 (List.length selected)).
Proof.
  intros Hne. destruct (dashboard_generates selected mode g Hne) as (m & E).
  eexists _, m, _. split; [exact E |].
  rewrite records_generate_cell_data, cell_ids_of_rows, types_of_rows,
    modes_of_rows, length_map, !map_map.
  split; [| split; reflexivity].
  apply map_ext. intros s. now rewrite upper_lower.
Qed.

Lemma dashboard_rows_witness :
  exists df m header,
    fst (CellMain.dashboard ["NiMH"; "Lead-Acid"] "Idle" true quarters)
    = CellMain.Generated df m header /\
    map (fun row => get row "Type") (records df)
    = map (fun s => Some (VStr (upper s))) ["NiMH"; "Lead-Acid"] /\
    map (fun row => get row "Mode") (records df)
    = map (fun _ => Some (VStr "Idle")) ["NiMH"; "Lead-Acid"] /\
    map (fun row => get row "Cell ID") (records df)
    = map (fun i => Some (VStr ("Cell_" ++ str_of_nat i)))
          (seq 1 (List.length ["NiMH"; "Lead-Acid"])).
Proof.
  apply (dashboard_rows ["NiMH"; "Lead-Acid"] "Idle" quarters). discriminate.
Defined.

End Effects.

Section Selection.
Import Py Random Pandas Spec.

Lemma filter_compose {A : Type} (f g h : A -> bool) (l : list A) :
  (forall y, h y = g y && f y) -> filter h l = filter f (filter g l).
Proof.
  intros H. induction l as [| x l IH]; cbn; [reflexivity |].
  rewrite H. destruct (g x); cbn; [destruct (f x) |]; now rewrite IH.
Qed.

Lemma filter_all {A : Type} (f : A -> bool) (l : list A) :
  Forall (fun x => f x = true) l -> filter f l = l.
Proof. induction 1 as [| x l Hx _ IH]; cbn; [| rewrite Hx, IH]; reflexivity. Qed.

Lemma fold_insert_first (l acc : list string) :
  fold_left insert_key l acc
  = (acc ++ filter (fun y => negb (existsb (String.eqb y) acc))
              (first_occurrences l))%list.
Proof.
  revert acc. induction l as [| k l IH]; intros acc; cbn [fold_left first_occurrences].
  - cbn. now rewrite app_nil_r.
  - rewrite IH. unfold insert_key. cbn [filter].
    destruct (existsb (String.eqb k) acc) eqn:E; cbn [negb].
    + f_equal. apply filter_compose. intros y.
      destruct (String.eqb_spec k y) as [<- | N]; cbn; [now rewrite E | reflexivity].
    + rewrite <- app_assoc. cbn [app]. do 2 f_equal.
      apply filter_compose. intros y.
      rewrite existsb_app. cbn. rewrite orb_false_r, negb_orb, (String.eqb_sym y k).
      apply andb_comm.
Qed.

Lemma first_occurrences_NoDup (l : list string) :
  NoDup l -> first_occurrences l = l.
Proof.
  induction 1 as [| x l Hx _ IH]; cbn; [reflexivity |].
  rewrite IH. f_equal. apply filter_all, Forall_forall. intros y Hy.
  destruct (String.eqb_spec x y); [subst; contradiction | reflexivity].
Qed.

Lemma duplicates_keep_first_order (l : list string) :
  dict_fromkeys l = first_occurrences l.
Proof.
  unfold dict_fromkeys. rewrite fold_insert_first. cbn [app].
  apply filter_all, Forall_forall. reflexivity.
Qed.

(** [list(dict.fromkeys(l))] removes the duplicates of [l] and keeps each
    element at the place of its first occurrence; a list without
    duplicates is left as it is. *)
Theorem duplicates_keep_first (l : list string) :
  dict_fromkeys l = first_occurrences l /\
  (NoDup l -> dict_fromkeys l = l).
Proof.
  split; [apply duplicates_keep_first_order |].
  intros H. rewrite duplicates_keep_first_order. now apply first_occurrences_NoDup.
Qed.

Lemma duplicates_keep_first_witness :
  dict_fromkeys ["nmc"; "lfp"; "nca"] = ["nmc"; "lfp"; "nca"].
Proof.
  apply (proj2 (duplicates_keep_first ["nmc"; "lfp"; "nca"])).
  repeat constructor; cbn; intuition discriminate.
Defined.

Lemma lowered_options_kept (selected : list string) :
  Forall sidebar_option selected ->
  Forall (fun c => In c (map lower Main.available_cell_types) /\
                   negb (String.eqb (strip c) "") = true)
         (map lower (filter truthy selected)).
Proof.
  intros H. apply Forall_forall. intros c Hc.
  apply in_map_iff in Hc as (s & <- & Hs). apply filter_In in Hs as [Hs Ht].
  rewrite Forall_forall in H. destruct (H s Hs) as [-> | Ha]; [discriminate |].
  cbn in Ha. decompose [or] Ha; subst; try contradiction;
    (split; [cbn; auto 10 | reflexivity]).
Qed.

(** Whatever is chosen in the select boxes of [main.py]'s sidebar, the
    cells generated are the chosen types in lower case, without duplicates,
    in the order of their first choice: the white-space filter removes
    nothing, there are never more than seven cells, and when the chosen
    types are all different every choice gets its reading. *)
Theorem sidebar_selection (selected : list string) :
  Forall sidebar_option selected ->
  let chosen := map lower (filter truthy selected) in
  Main.select_cells selected = first_occurrences chosen /\
  (List.length (Main.select_cells selected) <= 7)%nat /\
  (NoDup chosen ->
     Main.select_cells selected = chosen /\
     List.length (Main.select_cells selected) = count_nonempty selected).
Proof.
  intros H. cbv zeta. pose proof (lowered_options_kept selected H) as K.
  assert (E : Main.select_cells selected
              = dict_fromkeys (map lower (filter truthy selected))).
  { unfold Main.select_cells. f_equal. apply filter_all.
    eapply Forall_impl; [| exact K]. now intros c [_ Hc]. }
  split; [rewrite E; apply duplicates_keep_first_order |]. split.
  - change 7%nat with (List.length (map lower Main.available_cell_types)).
    apply NoDup_incl_length; [rewrite E; apply dict_fromkeys_NoDup |].
    intros c Hc. rewrite E in Hc. apply (proj1 (dict_fromkeys_In _ _)) in Hc.
    rewrite Forall_forall in K. exact (proj1 (K c Hc)).
  - intros N. rewrite E, duplicates_keep_first_order.
    rewrite first_occurrences_NoDup by exact N.
    split; [reflexivity |]. unfold count_nonempty. apply length_map.
Qed.

Lemma sidebar_selection_witness :
  Main.select_cells ["LFP"; ""; "NMC"; "LFP"; "NiMH"; ""; ""; "NMC"]
  = first_occurrences
      (map lower (filter truthy ["LFP"; ""; "NMC"; "LFP"; "NiMH"; ""; ""; "NMC"])).
Proof.
  apply (sidebar_selection ["LFP"; ""; "NMC"; "LFP"; "NiMH"; ""; ""; "NMC"]).
  repeat (apply Forall_cons; [unfold sidebar_option; simpl; auto 10 |]).
  apply Forall_nil.
Defined.

End Selection.

Section TimeSeries.
Import Py Random Pandas Spec.

Lemma for_each_exn_invariant {E A B : Type} (I : state -> Prop)
  (P : A -> B -> Prop) (body : A -> Rand (E + B)) :
  (forall x g, I g ->
     exists y, fst (body x g) = inr y /\ P x y /\ I (snd (body x g))) ->
  forall l g, I g ->
    exists ys, fst (for_each_exn l body g) = inr ys /\ Forall2 P l ys /\
               I (snd (for_each_exn l body g)).
Proof.
  intros Hb l. induction l as [| x l IH]; intros g Hg; cbn [for_each_exn].
  - exists []. unfold ret. cbn. repeat split; [constructor | exact Hg].
  - unfold bind_exn. destruct (Hb x g Hg) as (y & Ey & Hy & Hg').
    destruct (body x g) as [r g']. cbn [fst snd] in *. subst r.
    destruct (IH g' Hg') as (ys & Eys & Hys & Hg'').
    destruct (for_each_exn l body g') as [r g'']. cbn [fst snd] in *. subst r.
    exists (y :: ys). unfold ret. cbn. repeat split; [now constructor | exact Hg''].
Qed.

Lemma generate_cell_data_unit_draws (cell_selection : list string) (mode : string)
  (g : state) :
  unit_draws g -> unit_draws (snd (CellMain.generate_cell_data cell_selection mode g)).
Proof.
  intros Hg k. rewrite (proj1 (draws_consumed_at cell_selection mode g k)). apply Hg.
Qed.

(** The record of the time series holds the four statistics of
    [show_metrics]. *)
Lemma performance_record_metrics (t : nat) (mode : string) (df : DataFrame) :
  CellMain.performance_record t mode df
  = m <-? CellMain.show_metrics df ;;
    inr [ ("Time", VInt (Z.of_nat t)); ("Mode", VStr mode);
          ("Avg Voltage", CellMain.avg_voltage m);
          ("Avg Current", CellMain.avg_current m);
          ("Avg Temp", CellMain.avg_temp m);
          ("Total Capacity", CellMain.total_capacity m) ].
Proof.
  unfold CellMain.performance_record, CellMain.show_metrics.
  destruct (s <-? getitem df VOLTAGE ;; mean s); [reflexivity |]. cbn [bind_sum].
  destruct (s <-? getitem df CURRENT ;; mean s); [reflexivity |]. cbn [bind_sum].
  destruct (s <-? getitem df TEMP ;; mean s); [reflexivity |]. cbn [bind_sum].
  destruct (s <-? getitem df CAPACITY ;; sum s); reflexivity.
Qed.

Lemma series_records (modes : list string) (steps : nat)
  (cell_selection : list string) (g : state) :
  unit_draws g -> cell_selection <> [] ->
  exists records,
    fst (CellMain.sample_series modes steps cell_selection g) = inr records /\
    List.length records = (List.length modes * steps)%nat /\
    map tag records = expected_tags modes steps /\
    Forall (series_record (count cell_selection) modes) records.
Proof.
  intros Hg Hne. unfold CellMain.sample_series, bind_exn.
  destruct (for_each_exn_invariant unit_draws
              (fun mode recs =>
                 map tag recs
                 = map (fun t => (Some (VInt (Z.of_nat t)), Some (VStr mode)))
                       (seq 0 steps) /\
                 Forall (series_record (count cell_selection) [mode]) recs)
              (fun mode =>
                 for_each_exn (seq 0 steps) (fun t =>
                   (df <- CellMain.generate_cell_data cell_selection mode ;;
                    ret (CellMain.performance_record t mode df))%rand))
              (E := exn)) with (l := modes) (g := g) as (per_mode & E & H & _);
    [| exact Hg |].
  { intros mode g' Hg'.
    destruct (for_each_exn_invariant unit_draws
                (fun (t : nat) record =>
                   tag record = (Some (VInt (Z.of_nat t)), Some (VStr mode)) /\
                   series_record (count cell_selection) [mode] record)
                (fun t =>
                   (df <- CellMain.generate_cell_data cell_selection mode ;;
                    ret (CellMain.performance_record t mode df))%rand)
                (E := exn)) with (l := seq 0 steps) (g := g')
      as (recs & Er & Hr & Hg''); [| exact Hg' |].
    - intros t g'' Hu. unfold bind, ret.
      pose proof (show_metrics_ranges cell_selection mode g'' Hu Hne)
        as (v & c & tm & w & Em & Hv & Hc & Ht & Hw1 & Hw2).
      pose proof (generate_cell_data_unit_draws cell_selection mode g'' Hu) as Hn.
      destruct (CellMain.generate_cell_data cell_selection mode g'') as [df g3].
      cbn [fst snd] in *. rewrite performance_record_metrics, Em. cbn [bind_sum].
      eexists. split; [reflexivity |]. split; [| exact Hn].
      split; [reflexivity |].
      exists (Z.of_nat t), mode, v, c, tm, w. cbn [In]. tauto.
    - exists recs. split; [exact Er |]. split; [| exact Hg''].
      split.
      + apply Forall2_map_eq.
        eapply Forall2_weaken; [| exact Hr]. now intros t r [T _].
      + apply Forall2_right with (l := seq 0 steps).
        eapply Forall2_weaken; [| exact Hr]. now intros t r [_ S]. }
  destruct (for_each_exn modes _ g) as [r g']. cbn [fst] in E. subst r.
  exists (List.concat per_mode). unfold ret. cbn [fst]. split; [reflexivity |].
  assert (T : map tag (List.concat per_mode) = expected_tags modes steps).
  { unfold expected_tags. rewrite concat_map, flat_map_concat_map. f_equal.
    apply Forall2_map_eq. eapply Forall2_weaken; [| exact H].
    now intros mode recs [M _]. }
  split; [rewrite <- (length_map tag), T; apply expected_tags_length |].
  split; [exact T |].
  clear Hg T. induction H as [| mode recs modes' per_mode' [L F] _ IF].
  - constructor.
  - cbn [List.concat].
    apply Forall_app. split.
    + eapply Forall_impl; [| exact F].
      intros r (t & m & v & c & tm & w & Er & [<- | []] & Hrest).
      exists t, mode, v, c, tm, w. cbn [In]. tauto.
    + eapply Forall_impl; [| exact IF].
      intros r (t & m & v & c & tm & w & Er & Hin & Hrest).
      exists t, m, v, c, tm, w. cbn [In]. tauto.
Qed.

End TimeSeries.

Section Pages.
Import Py Random Pandas Spec.

Lemma series_columns (n : Q) (modes : list string) (records : list dict) :
  records <> [] -> Forall (series_record n modes) records ->
  columns (from_records records) = PERFORMANCE_COLUMNS.
Proof.
  intros Hne H. apply columns_uniform; [exact Hne | | reflexivity].
  eapply Forall_impl; [| exact H].
  now intros r (t & m & v & c & tm & w & -> & _).
Qed.

(** With draws in [0, 1) the performance page never raises: its frame has
    thirty rows, tagged in order with the times 0 to 9 of Idle, then of
    Charging, then of Discharging; each row holds the statistics of three
    cells within the ranges of the mode it is tagged with, and the file
    offered for download has the header
    [Time,Mode,Avg Voltage,Avg Current,Avg Temp,Total Capacity]. *)
Theorem performance_page (g : state) :
  unit_draws g ->
  exists perf_df,
    fst (CellMain.performance_and_graphs g) = inr perf_df /\
    List.length (records perf_df) = 30%nat /\
    map tag (records perf_df) = expected_tags CellMain.OPERATING_MODES 10 /\
    Forall (series_record 3 CellMain.OPERATING_MODES) (records perf_df) /\
    CellMain.download_csv perf_df
    = "Time,Mode,Avg Voltage,Avg Current,Avg Temp,Total Capacity".
Proof.
  intros Hg. unfold CellMain.performance_and_graphs, bind_exn.
  destruct (series_records CellMain.OPERATING_MODES 10 ["lfp"; "nmc"; "nca"] g Hg)
    as (recs & E & L & T & F); [discriminate |].
  destruct (CellMain.sample_series _ _ _ g) as [r g']. cbn [fst] in E. subst r.
  exists (from_records recs). unfold ret. cbn [fst records from_records].
  split; [reflexivity |]. split; [exact L |]. split; [exact T |].
  split; [exact F |].
  assert (Hne : recs <> []) by (destruct recs; [discriminate L | discriminate]).
  unfold CellMain.download_csv, to_csv_header.
  now rewrite (series_columns _ _ recs Hne F).
Qed.

Lemma performance_page_witness :
  exists perf_df,
    fst (CellMain.performance_and_graphs quarters) = inr perf_df /\
    List.length (records perf_df) = 30%nat /\
    map tag (records perf_df) = expected_tags CellMain.OPERATING_MODES 10 /\
    Forall (series_record 3 CellMain.OPERATING_MODES) (records perf_df) /\
    CellMain.download_csv perf_df
    = "Time,Mode,Avg Voltage,Avg Current,Avg Temp,Total Capacity".
Proof. exact (performance_page quarters quarters_unit). Defined.

End Pages.

Section RealTime.
Import Py Random Pandas Spec.

Lemma for_each_exn_shift {E A B : Type} (d : nat) (body : A -> Rand (E + B)) :
  (forall x g, (exists y, fst (body x g) = inr y) /\
               forall k, snd (body x g) k = g (d + k)%nat) ->
  forall l g k, snd (for_each_exn l body g) k = g (d * List.length l + k)%nat.
Proof.
  intros Hb l. induction l as [| x l IH]; intros g k; cbn [for_each_exn List.length].
  - unfold ret. cbn. f_equal. lia.
  - unfold bind_exn. destruct (Hb x g) as [(y & Ey) Hx].
    destruct (body x g) as [r g']. cbn [fst snd] in *. subst r.
    pose proof (IH g' k) as Hl.
    destruct (for_each_exn l body g') as [[e | ys] g'']; unfold ret;
      cbv beta iota; cbn [snd] in *; rewrite Hl, Hx; f_equal; lia.
Qed.

Lemma realtime_round (mode : string) (g : state) :
  unit_draws g ->
  exists shown,
    fst ((df <- CellMain.generate_cell_data ["lfp"; "nmc"; "nca"] mode ;;
          ret (m <-? CellMain.show_metrics df ;;
               _ <-? CellMain.show_charts df ;;
               inr (df, m)))%rand g) = inr shown /\
    realtime_snapshot mode shown.
Proof.
  intros Hg. unfold bind, ret.
  pose proof (show_metrics_ranges ["lfp"; "nmc"; "nca"] mode g Hg
                ltac:(discriminate)) as (v & c & t & w & Em & Hr).
  pose proof (generated_telemetry ["lfp"; "nmc"; "nca"] mode g
                ltac:(discriminate)) as Ht.
  pose proof (types_of_rows ["lfp"; "nmc"; "nca"] mode g) as Ty.
  rewrite <- records_generate_cell_data in Ty.
  destruct (CellMain.generate_cell_data ["lfp"; "nmc"; "nca"] mode g) as [df g'].
  cbn [fst] in *. rewrite Em. cbn [bind_sum].
  destruct (show_charts_succeeds df Ht) as (series & ->). cbn [bind_sum].
  eexists. split; [reflexivity |]. split; [exact Ty |].
  exists v, c, t, w. split; [reflexivity | exact Hr].
Qed.

(** Once started, with draws in [0, 1), the real-time page displays exactly
    twenty snapshots, whatever the mode, and never raises: each has the
    three cells LFP, NMC and NCA and statistics within the ranges of the
    mode.  The twenty snapshots take sixty times the draws of a cell.  When
    the button is not pressed nothing is generated and nothing drawn. *)
Theorem realtime_page (mode : string) (g : state) :
  unit_draws g ->
  (exists shown,
     fst (CellMain.realtime_application mode true g) = inr shown /\
     List.length shown = 20%nat /\
     Forall (realtime_snapshot mode) shown) /\
  (forall k, snd (CellMain.realtime_application mode true g) k
             = g (60 * draws_per_cell mode + k)%nat) /\
  CellMain.realtime_application mode false g = (inr [], g).
Proof.
  intros Hg. unfold CellMain.realtime_application. split; [| split].
  - destruct (for_each_exn_invariant unit_draws
                (fun (_ : nat) shown => realtime_snapshot mode shown)
                (fun _ =>
                   (df <- CellMain.generate_cell_data ["lfp"; "nmc"; "nca"] mode ;;
                    ret (m <-? CellMain.show_metrics df ;;
                         _ <-? CellMain.show_charts df ;;
                         inr (df, m)))%rand)
                (E := exn)) with (l := seq 0 20) (g := g) as (shown & E & H & _);
      [| exact Hg |].
    + intros _ g' Hg'. destruct (realtime_round mode g' Hg') as (shown & E & H).
      exists shown. split; [exact E |]. split; [exact H |].
      unfold bind, ret.
      pose proof (generate_cell_data_unit_draws ["lfp"; "nmc"; "nca"] mode g' Hg').
      now destruct (CellMain.generate_cell_data ["lfp"; "nmc"; "nca"] mode g').
    + exists shown. split; [exact E |].
      split; [now rewrite <- (Forall2_length H), length_seq |].
      eapply Forall2_right, H.
  - intros k.
    rewrite (for_each_exn_shift (3 * draws_per_cell mode)).
    + rewrite length_seq. f_equal. lia.
    + intros _ g'. split.
      * unfold bind, ret.
        pose proof (generated_telemetry ["lfp"; "nmc"; "nca"] mode g'
                      ltac:(discriminate)) as Ht.
        destruct (CellMain.generate_cell_data ["lfp"; "nmc"; "nca"] mode g') as [df g''].
        cbn [fst] in *.
        destruct (show_metrics_succeeds df Ht) as (v & c & t & w & ->).
        destruct (show_charts_succeeds df Ht) as (series & ->). cbn. eauto.
      * intros k'. unfold bind, ret.
        pose proof (proj1 (draws_consumed_at ["lfp"; "nmc"; "nca"] mode g' k')) as D.
        destruct (CellMain.generate_cell_data ["lfp"; "nmc"; "nca"] mode g') as [df g''].
        cbn [snd List.length] in *. rewrite D. f_equal. lia.
  - reflexivity.
Qed.

Lemma realtime_page_witness :
  exists shown,
    fst (CellMain.realtime_application "Charging" true quarters) = inr shown /\
    List.length shown = 20%nat /\
    Forall (realtime_snapshot "Charging") shown.
Proof. exact (proj1 (realtime_page "Charging" quarters quarters_unit)). Defined.

(** The fields of the readings of [main.py], in their ranges. *)
Lemma plain_fields_between (cell_selection : list string) (g : state) :
  unit_draws g ->
  Forall (fun row =>
            field_between VOLTAGE (3.2, 3.6) row /\
            field_between CURRENT (0.5, 5.0) row /\
            field_between TEMP (25, 40) row /\
            field_between CAPACITY (1.6, 18.0) row)
         (fst (Main.generate_rows cell_selection g)).
Proof.
  intros Hg. apply Forall2_right with (l := enumerate cell_selection 1).
  eapply Forall2_weaken; [| apply plain_rows_bounded, Hg].
  intros ix row (c & t & -> & _ & _ & H).
  destruct (H eq_refl) as [[C1 C2] Ht].
  split; [| split; [| split]].
  - eexists. split; [reflexivity |].
    destruct (voltage_base_cases (snd ix)) as [-> | ->]; split; vm_compute; discriminate.
  - eexists. split; [reflexivity | now split].
  - eexists. split; [reflexivity | exact Ht].
  - eexists. split; [reflexivity |]. unfold between. cbn [fst snd].
    destruct (voltage_base_cases (snd ix)) as [-> | ->];
      refine (rounded_product_between _ _ _ _ _ _ _ _ _ _ _
                (conj (Qle_refl _) (Qle_refl _)) (conj C1 C2) _ _);
      vm_compute; discriminate.
Qed.

(** With draws in [0, 1), when at least one cell type is chosen, [main.py]
    ends with its frame and four statistics and never with an exception: a
    mean voltage between 3.2 and 3.6, a mean current between 0.5 and 5.0, a
    mean temperature between 25 and 40, and a total capacity between 1.6
    and 18.0 times the number of cells. *)
Theorem script_metrics_within_ranges (selected : list string) (g : state) :
  unit_draws g -> Main.select_cells selected <> [] ->
  exists df v c t w header,
    fst (Main.script selected true g)
    = CellMain.Generated df
        (CellMain.mkMetrics (VFloat v) (VFloat c) (VFloat t) (VFloat w)) header /\
    List.length (records df) = List.length (Main.select_cells selected) /\
    between (3.2, 3.6) v /\ between (0.5, 5.0) c /\ between (25, 40) t /\
    count (Main.select_cells selected) * 1.6 <= w /\
    w <= count (Main.select_cells selected) * 18.0.
Proof.
  intros Hg Hne. unfold Main.script.
  pose proof (plain_telemetry _ g Hne) as Ht.
  pose proof (plain_fields_between (Main.select_cells selected) g Hg) as F.
  pose proof (plain_rows_length (Main.select_cells selected) g) as L.
  destruct (Main.select_cells selected) as [| s ss] eqn:Es; [congruence |].
  unfold bind, ret.
  destruct (Main.generate_rows (s :: ss) g) as [rows g']. cbn [fst] in *.
  set (df := from_records rows) in *.
  destruct Ht as (Hr & Hid & [Kv _] & [Kc _] & [Kt _] & [Kw _]).
  change rows with (records df) in F.
  apply Forall_and_inv in F as [Fv F]. apply Forall_and_inv in F as [Fc F].
  apply Forall_and_inv in F as [Ft Fw].
  destruct (column_mean_between df _ _ Hr Kv Fv) as (v & Ev & Hv).
  destruct (column_mean_between df _ _ Hr Kc Fc) as (c & Ec & Hc).
  destruct (column_mean_between df _ _ Hr Kt Ft) as (t & Et & Htm).
  destruct (column_sum_between df _ _ Kw Fw) as (w & Ew & Hw).
  assert (Em : Main.show_metrics df
               = inr (CellMain.mkMetrics (VFloat v) (VFloat c) (VFloat t) (VFloat w))).
  { unfold Main.show_metrics. now rewrite Ev, Ec, Et, Ew. }
  rewrite Em.
  unfold CellMain.show_charts, CellMain.indexed_by_cell.
  rewrite (getitem_column df "Cell ID" Hid), (getitem_column df _ Kt),
    (getitem_column df _ Kw). cbn [bind_sum].
  exists df, v, c, t, w. eexists. split; [reflexivity |].
  split; [exact L |]. split; [exact Hv |]. split; [exact Hc |]. split; [exact Htm |].
  unfold count in *. cbn [records df from_records] in Hw. rewrite L in Hw. exact Hw.
Qed.

Lemma script_metrics_within_ranges_witness :
  exists df v c t w header,
    fst (Main.script ["LFP"; ""; "NMC"] true quarters)
    = CellMain.Generated df
        (CellMain.mkMetrics (VFloat v) (VFloat c) (VFloat t) (VFloat w)) header /\
    List.length (records df) = List.length (Main.select_cells ["LFP"; ""; "NMC"]) /\
    between (3.2, 3.6) v /\ between (0.5, 5.0) c /\ between (25, 40) t /\
    count (Main.select_cells ["LFP"; ""; "NMC"]) * 1.6 <= w /\
    w <= count (Main.select_cells ["LFP"; ""; "NMC"]) * 18.0.
Proof.
  apply (script_metrics_within_ranges ["LFP"; ""; "NMC"] quarters quarters_unit).
  vm_compute. discriminate.
Defined.

End RealTime.
